(** * The configurator main window (configurator/src/MainWindow.cpp)

    A shallow embedding of [MainWindow]: the window's private state and the
    process-wide configuration object are threaded explicitly, every call
    into a collaborator that is not part of MainWindow.cpp (the stores, the
    configuration pages, the commit operation, the file system) goes through
    an interface record, and everything the window does to the outside
    (dialogs, store accesses, file reads) is recorded in a trace. *)

From Stdlib Require Import ZArith Ascii String List.
From stdpp Require Import gmap strings list fin_maps pretty.

Local Open Scope string_scope.

(** ** Qt string primitives used by MainWindow.cpp

    QString and QByteArray are modelled as [string], a sequence of 8-bit
    characters; case folding is the ASCII one. *)
Module Qt.

Inductive CaseSensitivity := CaseInsensitive | CaseSensitive.

(** QChar::toLower on the ASCII range. *)
Definition toLower (c : ascii) : ascii :=
  let n := nat_of_ascii c in
  if (65 <=? n)%nat && (n <=? 90)%nat then ascii_of_nat (n + 32) else c.

Definition eqChar (cs : CaseSensitivity) (a b : ascii) : bool :=
  match cs with
  | CaseSensitive => Ascii.eqb a b
  | CaseInsensitive => Ascii.eqb (toLower a) (toLower b)
  end.

Definition chars (s : string) : list ascii := list_ascii_of_string s.

Fixpoint startsWithChars (cs : CaseSensitivity) (s pre : list ascii) {struct pre} : bool :=
  match pre, s with
  | [], _ => true
  | _ :: _, [] => false
  | p :: pre', c :: s' => eqChar cs c p && startsWithChars cs s' pre'
  end.

(** [s.endsWith( suffix, cs )]; Qt's default for [cs] is case sensitive. *)
Definition endsWith (s suffix : string) (cs : CaseSensitivity) : bool :=
  startsWithChars cs (rev (chars s)) (rev (chars suffix)).

(** What [endsWith] is meant to decide: [s] is some stem followed by an
    ending that is [suffix], up to the case of letters when [cs] says so. *)
Definition sameText (cs : CaseSensitivity) (a b : string) : Prop :=
  match cs with
  | CaseSensitive => a = b
  | CaseInsensitive => map toLower (chars a) = map toLower (chars b)
  end.

Definition hasSuffix (cs : CaseSensitivity) (s suffix : string) : Prop :=
  exists stem ending, s = stem ++ ending /\ sameText cs ending suffix.

(** [s.isEmpty()] *)
Definition isEmpty (s : string) : bool :=
  match s with EmptyString => true | String _ _ => false end.

(** [QFileInfo::baseName()] of a file name without directory part: the
    characters up to, not including, the first ['.']. *)
Fixpoint baseName (fileName : string) : string :=
  match fileName with
  | EmptyString => EmptyString
  | String c rest => if Ascii.eqb c "." then EmptyString else String c (baseName rest)
  end.

(** [QByteArray::trimmed()]: whitespace removed from both ends. *)
Definition isSpace (c : ascii) : bool :=
  let n := nat_of_ascii c in
  ((9 <=? n)%nat && (n <=? 13)%nat) || (n =? 32)%nat.

Fixpoint dropSpaces (l : list ascii) : list ascii :=
  match l with
  | c :: l' => if isSpace c then dropSpaces l' else l
  | [] => []
  end.

Definition trimmed (s : string) : string :=
  string_of_list_ascii (rev (dropSpaces (rev (dropSpaces (chars s))))).

(** [QChar::digitValue()] on the ASCII digits. *)
Definition digitValue (c : ascii) : option nat :=
  let n := nat_of_ascii c in
  if (48 <=? n)%nat && (n <=? 57)%nat then Some (n - 48)%nat else None.

(** [QString::arg( a )].  The string is scanned for place markers: a [%],
    an optional [L], a digit and, if one follows at once, a second digit; a
    [%] not followed that way is plain text and the scan goes on right
    behind it.  Every marker with the lowest number found is replaced by
    [a], a string argument filling a marker with [L] like one without;
    with no marker at all the string comes back unchanged. *)
Inductive ArgPiece :=
| Text (c : ascii)
| Marker (number : nat) (raw : list ascii).

Fixpoint argPieces (l : list ascii) : list ArgPiece :=
  match l with
  | [] => []
  | c :: rest =>
      if Ascii.eqb c "%" then
        match rest with
        | [] => [Text c]
        | c1 :: rest1 =>
            if Ascii.eqb c1 "L" then
              match rest1 with
              | [] => Text c :: argPieces rest
              | c2 :: rest2 =>
                  match digitValue c2 with
                  | None => Text c :: argPieces rest
                  | Some n =>
                      match rest2 with
                      | [] => [Marker n [c; c1; c2]]
                      | c3 :: rest3 =>
                          match digitValue c3 with
                          | Some m => Marker (10 * n + m) [c; c1; c2; c3] :: argPieces rest3
                          | None => Marker n [c; c1; c2] :: argPieces rest2
                          end
                      end
                  end
              end
            else
              match digitValue c1 with
              | None => Text c :: argPieces rest
              | Some n =>
                  match rest1 with
                  | [] => [Marker n [c; c1]]
                  | c2 :: rest2 =>
                      match digitValue c2 with
                      | Some m => Marker (10 * n + m) [c; c1; c2] :: argPieces rest2
                      | None => Marker n [c; c1] :: argPieces rest1
                      end
                  end
              end
        end
      else Text c :: argPieces rest
  end.

Definition lowestMarker (pieces : list ArgPiece) : option nat :=
  fold_right (fun piece lowest =>
                match piece, lowest with
                | Marker n _, Some m => Some (Nat.min n m)
                | Marker n _, None => Some n
                | Text _, _ => lowest
                end) None pieces.

Definition fill (lowest : nat) (a : string) (piece : ArgPiece) : list ascii :=
  match piece with
  | Text c => [c]
  | Marker n raw => if (n =? lowest)%nat then chars a else raw
  end.

Definition arg (s a : string) : string :=
  let pieces := argPieces (chars s) in
  match lowestMarker pieces with
  | None => s
  | Some lowest => string_of_list_ascii (flat_map (fill lowest a) pieces)
  end.

(** QMessageBox::StandardButton and QDialogButtonBox::StandardButton share
    their numeric values. *)
Definition Yes : Z := 0x00004000.
Definition No : Z := 0x00010000.
Definition Apply : Z := 0x02000000.
Definition Reset : Z := 0x04000000.
Definition NoButton : Z := 0.

(** The line feed of C++'s ["\n"]. *)
Definition LF : string := String (ascii_of_nat 10) EmptyString.

End Qt.

(** ** Configuration data *)

(** A [QVariant] as the configuration objects hold it: a string, a byte
    array, or a nested map (a group of keys). *)
#[local] Set Warnings "-register-all".
Inductive Value :=
| VString (s : string)
| VByteArray (b : string)
| VMap (m : gmap string Value).

(** [Configuration::Object::DataMap] *)
Abbreviation DataMap := (gmap string Value).

Module Configuration.

(** Modelled from the spec: [Configuration::Object::clear()] is missing
    from the sources; the spec has it empty the snapshot. *)
Definition clear (d : DataMap) : DataMap := ∅.

(** Modelled from the spec: [Configuration::Object::operator+=] is missing
    from the sources; the spec has it merge a layer into the snapshot,
    the layer merged later winning on every key both define. *)
Definition merge (d layer : DataMap) : DataMap := layer ∪ d.

(** The entries of the group [parentKey] of a document.  A group nothing
    has been stored in has no entry; a document is read group by group
    through this function, which does not tell such a group from one that
    is not there. *)
Definition group (parentKey : string) (d : DataMap) : DataMap :=
  match d !! parentKey with
  | Some (VMap g) => g
  | _ => ∅
  end.

(** Modelled from the spec: [Configuration::Object::setValue( key, value,
    parentKey )] is missing from the sources; the spec has the values
    written into the group General and the log files stored under their
    base names in the group LogFiles, so the call puts [value] under [key]
    among the entries of the group [parentKey] and leaves every other entry
    of the document alone. *)
Definition setValue (key : string) (value : Value) (parentKey : string)
    (d : DataMap) : DataMap :=
  <[parentKey := VMap (<[key := value]> (group parentKey d))]> d.

(** Modelled from the spec: [Configuration::Object::addSubObject( obj,
    parentKey )] is missing from the sources; the spec has it embed a full
    copy of [obj]'s data as a nested object under [parentKey]. *)
Definition addSubObject (obj : DataMap) (parentKey : string) (d : DataMap) : DataMap :=
  <[parentKey := VMap obj]> d.

(** Modelled from the spec: the constructor [Configuration::Object( store )]
    is missing from the sources; the spec has the bug report document
    built fully in memory, holding the groups General, Configuration and
    LogFiles, and zero matching log files contribute no entries: the
    document starts with no entry in any group. *)
Definition newObject : DataMap := ∅.

End Configuration.

(** ** Build configuration: the preprocessor symbols MainWindow.cpp tests *)

(** [ITALC_BUILD_WIN32] is tested first, [ITALC_BUILD_LINUX] second; with
    neither defined the file does not compile ([os] and [machineInfo] would
    be undeclared), so a build is one of the two. *)
Inductive Platform := ITALC_BUILD_WIN32 | ITALC_BUILD_LINUX.

Record BuildConfig := {
  platform : Platform;
  ITALC_HOST_X86 : bool;
  ITALC_HOST_X86_64 : bool;
  ITALC_VERSION : string;
}.

(** [QSysInfo::WinVersion], as far as the switch distinguishes it. *)
Inductive WinVersion :=
| WV_NT | WV_2000 | WV_XP | WV_VISTA | WV_WINDOWS7 | WV_WINDOWS8
| WV_WINDOWS8_1 | WV_WINDOWS10 | WV_other.

(** The fields of [OSVERSIONINFOEX] the report uses. *)
Record OSVERSIONINFOEX := {
  wServicePackMajor : N;
  dwMajorVersion : N;
  dwMinorVersion : N;
  dwBuildNumber : N;
}.

(** [Configuration::JsonStore]'s scope argument. *)
Inductive Scope := System | BugReportArchive.

(** ** What the window does to the outside, in order *)
Inductive Event :=
| EvGetOpenFileName (caption : string)
| EvGetSaveFileName (caption : string)
| EvFileSystemBrowser (caption : string)
| EvQuestion (title text : string)
| EvInformation (title text : string)
| EvApplyConfiguration (c : DataMap)
| EvStoreLoad (scope : Scope) (file : string)
| EvStoreFlush (scope : Scope) (file : string) (data : DataMap)
| EvEntryList (dir : string)
| EvReadFile (file : string)
| EvProcess (program : string) (arguments : list string).

(** ** Collaborators

    [Sys] is the state of everything outside the process (files, the local
    configuration backend, the operating system), [Page] the state of one
    configuration page with its widgets.

    The stores are handed a pointer to the configuration object, and the
    pages write to it through the properties their widgets are connected
    to; such a call may make the object emit [configurationChanged], which
    line 80 connects to the window's slot.  Their results therefore carry a
    [bool]: whether the signal was emitted during the call.  The commit
    operation is handed the configuration as an argument and answers with
    success or failure. *)

(** The virtual methods of [ConfigurationPage] that the window calls. *)
Class ConfigurationPage (Page : Type) := {
  resetWidgets : DataMap -> Page -> Page * bool;
  connectWidgetsToProperties : Page -> Page;
  pageApplyConfiguration : DataMap -> Page -> Page * bool;
}.

Record Collaborators (Sys : Type) := {
  (* ItalcCore, ItalcConfiguration *)
  applicationName : string;
  defaultConfiguration : DataMap;
  localBackend : Sys -> DataMap;
  logFileDirectory : DataMap -> string;
  (* ConfiguratorCore::applyConfiguration: success, and the system afterwards *)
  applyConfiguration : DataMap -> Sys -> bool * Sys;
  (* Configuration::JsonStore( scope, file ): load gives the configuration
     as the store leaves it, flush the system after the attempt to write *)
  load : Scope -> string -> DataMap -> Sys -> DataMap * bool;
  flush : Scope -> string -> DataMap -> Sys -> Sys * bool;
  (* LocalSystem::Path, QDir, QFile, QProcess; a file that cannot be opened,
     a directory that does not exist and a process that did not run read
     as empty *)
  expand : string -> string;
  entryList : string -> list string -> Sys -> list string;
  absoluteFilePath : string -> string -> string;
  readAll : string -> Sys -> string;
  processOutput : string -> list string -> Sys -> string;
  toNativeSeparators : string -> string;
  qCompress : string -> string;
  toBase64 : string -> string;
  (* Win32 *)
  windowsVersion : Sys -> WinVersion;
  GetVersionEx : Sys -> OSVERSIONINFOEX;
  environmentValue : string -> Sys -> string;
}.

Arguments applicationName {Sys}.
Arguments defaultConfiguration {Sys}.
Arguments localBackend {Sys}.
Arguments logFileDirectory {Sys}.
Arguments applyConfiguration {Sys}.
Arguments load {Sys}.
Arguments flush {Sys}.
Arguments expand {Sys}.
Arguments entryList {Sys}.
Arguments absoluteFilePath {Sys}.
Arguments readAll {Sys}.
Arguments processOutput {Sys}.
Arguments toNativeSeparators {Sys}.
Arguments qCompress {Sys}.
Arguments toBase64 {Sys}.
Arguments windowsVersion {Sys}.
Arguments GetVersionEx {Sys}.
Arguments environmentValue {Sys}.

(** ** State *)

(** The window's members ([m_configChanged], the button box of [ui], the
    configuration pages found by [findChildren]), the process-wide
    [ItalcCore::config()], whether line 80 has connected the configuration's
    signal to the window's slot yet, the outside world and the trace. *)
Record State (Sys Page : Type) := {
  config : DataMap;
  pages : list Page;
  buttonBoxEnabled : bool;
  m_configChanged : bool;
  connected : bool;
  sys : Sys;
  trace : list Event;
}.

Arguments config {Sys Page}.
Arguments pages {Sys Page}.
Arguments buttonBoxEnabled {Sys Page}.
Arguments m_configChanged {Sys Page}.
Arguments connected {Sys Page}.
Arguments sys {Sys Page}.
Arguments trace {Sys Page}.

(** ** MainWindow *)
Section MainWindow.

Context {Sys Page : Type} `{ConfigurationPage Page}.
Variable E : Collaborators Sys.
Variable B : BuildConfig.

Abbreviation St := (State Sys Page).

(** *** Assignments to the members *)

Definition set_config (c : DataMap) (s : St) : St :=
  {| config := c; pages := pages s; buttonBoxEnabled := buttonBoxEnabled s;
     m_configChanged := m_configChanged s; connected := connected s;
     sys := sys s; trace := trace s |}.

Definition set_pages (ps : list Page) (s : St) : St :=
  {| config := config s; pages := ps; buttonBoxEnabled := buttonBoxEnabled s;
     m_configChanged := m_configChanged s; connected := connected s;
     sys := sys s; trace := trace s |}.

(** [ui->buttonBox->setEnabled( b )] *)
Definition setEnabled (b : bool) (s : St) : St :=
  {| config := config s; pages := pages s; buttonBoxEnabled := b;
     m_configChanged := m_configChanged s; connected := connected s;
     sys := sys s; trace := trace s |}.

Definition set_m_configChanged (b : bool) (s : St) : St :=
  {| config := config s; pages := pages s; buttonBoxEnabled := buttonBoxEnabled s;
     m_configChanged := b; connected := connected s;
     sys := sys s; trace := trace s |}.

Definition set_connected (b : bool) (s : St) : St :=
  {| config := config s; pages := pages s; buttonBoxEnabled := buttonBoxEnabled s;
     m_configChanged := m_configChanged s; connected := b;
     sys := sys s; trace := trace s |}.

Definition set_sys (y : Sys) (s : St) : St :=
  {| config := config s; pages := pages s; buttonBoxEnabled := buttonBoxEnabled s;
     m_configChanged := m_configChanged s; connected := connected s;
     sys := y; trace := trace s |}.

Definition record (e : Event) (s : St) : St :=
  {| config := config s; pages := pages s; buttonBoxEnabled := buttonBoxEnabled s;
     m_configChanged := m_configChanged s; connected := connected s;
     sys := sys s; trace := trace s ++ [e] |}.

(** *** The slot and the signal (lines 132-136, line 80) *)

Definition configurationChanged (s : St) : St :=
  set_m_configChanged true (setEnabled true s).

(** A [configurationChanged] signal emitted by the configuration object
    during a call into a collaborator runs the slot at once, provided
    the constructor has made the connection. *)
Definition deliver (emitted : bool) (s : St) : St :=
  if emitted && connected s then configurationChanged s else s.

(** [for( auto page : findChildren<ConfigurationPage *>() ) page->f();] *)
Fixpoint forEachPage (f : DataMap -> Page -> Page * bool)
    (ps : list Page) (s : St) : list Page * St :=
  match ps with
  | [] => ([], s)
  | page :: rest =>
      let '(page', emitted) := f (config s) page in
      let '(rest', s') := forEachPage f rest (deliver emitted s) in
      (page' :: rest', s')
  end.

Definition onPages (f : DataMap -> Page -> Page * bool) (s : St) : St :=
  let '(ps, s') := forEachPage f (pages s) s in
  set_pages ps s'.

(** *** reset (lines 94-110) *)

Definition reset (onlyUI : bool) (s : St) : St :=
  let s1 :=
    if negb onlyUI then
      let c0 := Configuration.clear (config s) in
      let c1 := Configuration.merge c0 (defaultConfiguration E) in
      let c2 := Configuration.merge c1 (localBackend E (sys s)) in
      set_config c2 s
    else s in
  let s2 := onPages resetWidgets s1 in
  set_m_configChanged false (setEnabled false s2).

(** Modelled from the spec: the default argument of [reset] is declared
    in MainWindow.h, which is missing from the sources; the spec has the
    constructor and the Reset button call [reset(false)]. *)
Definition reset_default : bool := false.

(** *** apply (lines 115-127) *)

Definition apply (s : St) : St :=
  let '(ok, sys') := applyConfiguration E (config s) (sys s) in
  let s1 := set_sys sys' (record (EvApplyConfiguration (config s)) s) in
  if ok then
    let s2 := onPages pageApplyConfiguration s1 in
    set_m_configChanged false (setEnabled false s2)
  else s1.

(** *** resetOrApply (lines 141-151); [btn] is [standardButton( btn )] *)

Definition resetOrApply (btn : Z) (s : St) : St :=
  if negb (Z.land btn Qt.Apply =? 0)%Z then apply s
  else if negb (Z.land btn Qt.Reset =? 0)%Z then reset reset_default s
  else s.

(** *** loadSettingsFromFile (lines 155-166); [fileName] is what the
    file dialog returned, empty when it was cancelled *)

Definition loadSettingsFromFile (fileName : string) (s : St) : St :=
  let s0 := record (EvGetOpenFileName "Load settings from file") s in
  if negb (Qt.isEmpty fileName) then
    let '(c, emitted) := load E System fileName (config s0) (sys s0) in
    let s1 := deliver emitted (set_config c (record (EvStoreLoad System fileName) s0)) in
    let s2 := reset true s1 in
    configurationChanged s2
  else s0.

(** *** saveSettingsToFile (lines 171-190) *)

(** lines 177-180 *)
Definition settingsFileName (fileName : string) : string :=
  if negb (Qt.endsWith fileName ".json" Qt.CaseInsensitive)
  then fileName ++ ".json" else fileName.

Definition saveSettingsToFile (fileName : string) (s : St) : St :=
  let s0 := record (EvGetSaveFileName "Save settings to file") s in
  if negb (Qt.isEmpty fileName) then
    let fileName := settingsFileName fileName in
    let configChangedPrevious := m_configChanged s0 in
    let '(sys', emitted) := flush E System fileName (config s0) (sys s0) in
    let s1 := deliver emitted
                (set_sys sys' (record (EvStoreFlush System fileName (config s0)) s0)) in
    let s2 := set_m_configChanged configChangedPrevious s1 in
    setEnabled (m_configChanged s2) s2
  else s0.

(** *** closeEvent (lines 317-332); [answer] is what QMessageBox::question
    returns if it is asked, which the short-circuit [&&] does for a dirty
    window only; the result tells whether the close event ends up accepted
    ([accept()], upon which the base class closes the window) or ignored
    ([ignore()], upon which the window stays open) *)

Definition closeEvent (answer : Z) (s : St) : bool * St :=
  if m_configChanged s then
    let s1 := record (EvQuestion "Unsaved settings"
                        "There are unsaved settings. Quit anyway?") s in
    if negb (answer =? Qt.Yes)%Z then (false, s1) else (true, s1)
  else (true, s).

(** *** generateBugReportArchive (lines 195-306) *)

(** lines 208-211 *)
Definition bugReportFileName (outfile : string) : string :=
  if negb (Qt.endsWith outfile ".json" Qt.CaseSensitive)
  then outfile ++ ".json" else outfile.

(** lines 226-237 *)
Definition windowsName (v : WinVersion) : string :=
  match v with
  | WV_NT => "NT 4.0"
  | WV_2000 => "2000"
  | WV_XP => "XP"
  | WV_VISTA => "Vista"
  | WV_WINDOWS7 => "7"
  | WV_WINDOWS8 => "8"
  | WV_WINDOWS8_1 => "8.1"
  | WV_WINDOWS10 => "10"
  | WV_other => "<unknown>"
  end.

(** lines 219-259: [os] and [machineInfo].  [arg] prints a number in
    decimal; no marker of the template asks for the locale's form. *)
Definition systemInformation (s : St) : string * string * St :=
  match platform B with
  | ITALC_BUILD_WIN32 =>
      let ovi := GetVersionEx E (sys s) in
      let os := "Windows %1 SP%2 (%3.%4.%5)" in
      let os := Qt.arg os (windowsName (windowsVersion E (sys s))) in
      let os := Qt.arg (Qt.arg (Qt.arg (Qt.arg os
                  (pretty (wServicePackMajor ovi)))
                  (pretty (dwMajorVersion ovi)))
                  (pretty (dwMinorVersion ovi)))
                  (pretty (dwBuildNumber ovi)) in
      let machineInfo := environmentValue E "PROCESSOR_IDENTIFIER" (sys s) in
      (os, machineInfo, s)
  | ITALC_BUILD_LINUX =>
      let s1 := record (EvReadFile "/etc/lsb-release") s in
      let os := "Linux" ++ Qt.LF
                ++ Qt.trimmed (readAll E "/etc/lsb-release" (sys s1)) in
      let s2 := record (EvProcess "uname" ["-a"]) s1 in
      let machineInfo := Qt.trimmed (processOutput E "uname" ["-a"] (sys s2)) in
      (os, machineInfo, s2)
  end.

(** lines 261-267 *)
Definition buildType : string :=
  if ITALC_HOST_X86 B then "x86"
  else if ITALC_HOST_X86_64 B then "x86_64"
  else "unknown".

(** lines 281-285 *)
Definition tempDirectory : string :=
  match platform B with
  | ITALC_BUILD_WIN32 => "C:\Windows\Temp"
  | ITALC_BUILD_LINUX => "/tmp"
  end.

(** What line 293 stores for a log file with the given contents. *)
Definition encodeLog (contents : string) : string :=
  toBase64 E (qCompress E contents).

(** lines 291-294, the body of the inner loop; [f] is a name out of the
    listing of [d], so the base name of [d/f] is that of [f] *)
Definition addLogFile (d : string) (acc : DataMap * St) (f : string) : DataMap * St :=
  let '(obj, s) := acc in
  let logfile := absoluteFilePath E d f in
  let s1 := record (EvReadFile logfile) s in
  let data := encodeLog (readAll E logfile (sys s1)) in
  (Configuration.setValue (Qt.baseName f) (VByteArray data) "LogFiles" obj, s1).

(** lines 288-295, the body of the outer loop *)
Definition addLogDirectory (acc : DataMap * St) (p : string) : DataMap * St :=
  let '(obj, s) := acc in
  let s1 := record (EvEntryList p) s in
  fold_left (addLogFile p) (entryList E p ["Italc*.log"] (sys s1)) (obj, s1).

(** lines 279-285 *)
Definition logPaths (s : St) : list string :=
  [expand E (logFileDirectory E (config s)); tempDirectory].

(** lines 213-296: the document as it stands before it is written *)
Definition assembleBugReport (s : St) : DataMap * St :=
  let obj := Configuration.newObject in
  let '(os, machineInfo, s1) := systemInformation s in
  let obj := Configuration.setValue "OS" (VString os) "General" obj in
  let obj := Configuration.setValue "MachineInfo" (VString machineInfo) "General" obj in
  let obj := Configuration.setValue "BuildType" (VString buildType) "General" obj in
  let obj := Configuration.setValue "Version" (VString (ITALC_VERSION B)) "General" obj in
  let obj := Configuration.addSubObject (config s1) "Configuration" obj in
  fold_left addLogDirectory (logPaths s1) (obj, s1).

(** lines 301-305: the title and the text of the confirmation, as the
    chains of [arg] calls fill the untranslated texts; [QDTNS] is
    [QDir::toNativeSeparators]. *)
Definition savedMessage (outfile : string) : Event :=
  EvInformation
    (Qt.arg "%1 bug report archive saved" (applicationName E))
    (Qt.arg
       (Qt.arg
          (Qt.arg
             ("An %1 bug report archive has been saved to %2. "
              ++ "It includes %3 log files and information about your "
              ++ "operating system. You can attach it to a bug report.")
             (applicationName E))
          (toNativeSeparators E outfile))
       (applicationName E)).

(** [outfile] is what the file system browser returned, empty when it
    was cancelled.  The store written is the one of the local object
    [obj], whose signals nothing is connected to. *)
Definition generateBugReportArchive (outfile : string) (s : St) : St :=
  let s0 := record (EvFileSystemBrowser "Save bug report archive") s in
  if Qt.isEmpty outfile then s0
  else
    let outfile := bugReportFileName outfile in
    let '(obj, s1) := assembleBugReport s0 in
    let '(sys', _) := flush E BugReportArchive outfile obj (sys s1) in
    let s2 := set_sys sys' (record (EvStoreFlush BugReportArchive outfile obj) s1) in
    record (savedMessage outfile) s2.

(** *** The constructor (lines 46-83)

    [c0] is [ItalcCore::config()] as the process initialised it, [ps] and
    [enabled0] are the configuration pages and the button box as
    [setupUi] builds them.  The signal is connected last, so nothing
    emitted before reaches the slot.  The window title, the connections of
    the buttons and actions and the branding touch none of the members
    modelled here. *)
Definition MainWindow (c0 : DataMap) (ps : list Page) (enabled0 : bool) (y : Sys) : St :=
  let s0 := {| config := c0; pages := ps; buttonBoxEnabled := enabled0;
               m_configChanged := false; connected := false;
               sys := y; trace := [] |} in
  let s1 := reset reset_default s0 in
  let s2 := if (size (localBackend E (sys s1)) <? size (config s1))%nat
            then configurationChanged s1
            else s1 in
  let s3 := set_pages (map connectWidgetsToProperties (pages s2)) s2 in
  set_connected true s3.

(** *** The life of a window: what can happen to it once constructed *)
Inductive Action :=
| DoReset (onlyUI : bool)
| DoApply
| DoConfigurationChanged
| DoResetOrApply (btn : Z)
| DoLoadSettingsFromFile (fileName : string)
| DoSaveSettingsToFile (fileName : string)
| DoGenerateBugReportArchive (outfile : string)
| DoCloseEvent (answer : Z)
(* the user edits widgets: the pages and the configuration change, and
   the configuration may emit its signal *)
| DoEdit (ps : list Page) (c : DataMap) (emitted : bool)
(* the world outside the process moves on *)
| DoOutside (y : Sys).

Definition step (a : Action) (s : St) : St :=
  match a with
  | DoReset onlyUI => reset onlyUI s
  | DoApply => apply s
  | DoConfigurationChanged => configurationChanged s
  | DoResetOrApply btn => resetOrApply btn s
  | DoLoadSettingsFromFile fileName => loadSettingsFromFile fileName s
  | DoSaveSettingsToFile fileName => saveSettingsToFile fileName s
  | DoGenerateBugReportArchive outfile => generateBugReportArchive outfile s
  | DoCloseEvent answer => snd (closeEvent answer s)
  | DoEdit ps c emitted => deliver emitted (set_config c (set_pages ps s))
  | DoOutside y => set_sys y s
  end.

Inductive reachable : St -> Prop :=
| reachable_MainWindow c0 ps enabled0 y :
    reachable (MainWindow c0 ps enabled0 y)
| reachable_step a s :
    reachable s -> reachable (step a s).

(** *** Vocabulary for the statements about the bug report *)

(** The log files the loops of lines 286-296 visit, in that order, each
    as directory and name. *)
Definition logFiles (s : St) : list (string * string) :=
  flat_map (fun p => map (pair p) (entryList E p ["Italc*.log"] (sys s)))
           (logPaths s).

(** The key and the value line 294 stores for a log file. *)
Definition logEntry (s : St) (df : string * string) : string * Value :=
  (Qt.baseName df.2,
   VByteArray (encodeLog (readAll E (absoluteFilePath E df.1 df.2) (sys s)))).

(** The four keys of the group General. *)
Definition generalGroup (os machineInfo : string) : DataMap :=
  <["Version" := VString (ITALC_VERSION B)]>
    (<["BuildType" := VString buildType]>
       (<["MachineInfo" := VString machineInfo]>
          (<["OS" := VString os]> ∅))).

Definition isStoreFlush (e : Event) : bool :=
  match e with EvStoreFlush _ _ _ => true | _ => false end.

(** Several events recorded in a row. *)
Definition extend (es : list Event) (s : St) : St :=
  {| config := config s; pages := pages s; buttonBoxEnabled := buttonBoxEnabled s;
     m_configChanged := m_configChanged s; connected := connected s;
     sys := sys s; trace := trace s ++ es |}.

(** What the window reads while it assembles the report: the system
    information, then per directory the listing and each log file. *)
Definition systemEvents : list Event :=
  match platform B with
  | ITALC_BUILD_WIN32 => []
  | ITALC_BUILD_LINUX => [EvReadFile "/etc/lsb-release"; EvProcess "uname" ["-a"]]
  end.

Definition directoryEvents (s : St) (p : string) : list Event :=
  EvEntryList p
    :: map (fun f => EvReadFile (absoluteFilePath E p f))
           (entryList E p ["Italc*.log"] (sys s)).

Definition logEvents (s : St) : list Event :=
  flat_map (directoryEvents s) (logPaths s).

(** The value of the last entry with key [k], if there is one. *)
Definition lastEntry (k : string) (es : list (string * Value)) : option Value :=
  fold_left (fun found e => if String.eqb e.1 k then Some e.2 else found) es None.


(** An action abandoned after its dialog: nothing but the dialog happened. *)
Definition abandonedAfter (dialog : Event) (s s' : St) : Prop :=
  config s' = config s /\ pages s' = pages s /\
  m_configChanged s' = m_configChanged s /\
  buttonBoxEnabled s' = buttonBoxEnabled s /\
  sys s' = sys s /\ trace s' = (trace s ++ [dialog])%list.

(** The dirty flag and the button box agree. *)
Definition in_sync (s : St) : Prop :=
  buttonBoxEnabled s = m_configChanged s.

End MainWindow.

(** ** A small installation to run the window on *)
Module Scenario.

(** One page with one line edit, bound to the key Language; the page
    state is the text shown.  Showing another text than before makes the
    bound property emit a change. *)
Definition text (c : DataMap) : string :=
  match c !! "Language" with
  | Some (VString t) => t
  | _ => ""
  end.

#[global] Instance linePage : ConfigurationPage string := {|
  resetWidgets c shown := (text c, negb (String.eqb (text c) shown));
  connectWidgetsToProperties shown := shown;
  pageApplyConfiguration c shown := (shown, false);
|}.

Record Sys := {
  backend : DataMap;                  (* the local configuration backend *)
  writable : bool;                    (* whether the backend can be written *)
  settings : gmap string DataMap;     (* JSON files, parsed *)
  listing : gmap string (list string);(* log files per directory *)
  contents : gmap string string;      (* file contents by absolute path *)
}.

Definition commit (c : DataMap) (y : Sys) : bool * Sys :=
  if writable y
  then (true, {| backend := c; writable := true; settings := settings y;
                 listing := listing y; contents := contents y |})
  else (false, y).

Definition read (_ : Scope) (file : string) (c : DataMap) (y : Sys) : DataMap * bool :=
  match settings y !! file with
  | Some d => (d, true)
  | None => (c, false)
  end.

Definition write (_ : Scope) (file : string) (d : DataMap) (y : Sys) : Sys * bool :=
  ({| backend := backend y; writable := writable y;
      settings := <[file := d]> (settings y);
      listing := listing y; contents := contents y |}, true).

Definition collaborators : Collaborators Sys := {|
  applicationName := "iTALC";
  defaultConfiguration :=
    <["Language" := VString "en"]> (<["LogLevel" := VString "4"]> ∅);
  localBackend := backend;
  logFileDirectory c :=
    match c !! "LogFileDirectory" with
    | Some (VString d) => d
    | _ => "$TEMP"
    end;
  applyConfiguration := commit;
  load := read;
  flush := write;
  expand p := if String.eqb p "$TEMP" then "/tmp" else p;
  entryList p _ y := default [] (listing y !! p);
  absoluteFilePath p f := p ++ "/" ++ f;
  readAll f y := default "" (contents y !! f);
  processOutput _ _ _ := "Linux host 4.9.0 x86_64 GNU/Linux";
  toNativeSeparators p := p;
  qCompress b := "z:" ++ b;
  toBase64 b := "b64:" ++ b;
  windowsVersion _ := WV_other;
  GetVersionEx _ := {| wServicePackMajor := 0; dwMajorVersion := 0;
                       dwMinorVersion := 0; dwBuildNumber := 0 |};
  environmentValue _ _ := "";
|}.

Definition linux64 : BuildConfig := {|
  platform := ITALC_BUILD_LINUX;
  ITALC_HOST_X86 := false;
  ITALC_HOST_X86_64 := true;
  ITALC_VERSION := "3.0.0";
|}.

(** A machine whose local backend sets the language only, with no log
    files anywhere. *)
Definition quiet : Sys := {|
  backend := <["Language" := VString "de"]> ∅;
  writable := true;
  settings := ∅;
  listing := ∅;
  contents := ∅;
|}.

(** The same machine with a read-only backend. *)
Definition readonly : Sys := {|
  backend := <["Language" := VString "de"]> ∅;
  writable := false;
  settings := ∅;
  listing := ∅;
  contents := ∅;
|}.

(** A machine that logs to /var/log/italc and has a stale log of the same
    name in /tmp. *)
Definition logging : Sys := {|
  backend := <["LogFileDirectory" := VString "/var/log/italc"]>
               (<["Language" := VString "de"]> (<["LogLevel" := VString "4"]> ∅));
  writable := true;
  settings := ∅;
  listing := <["/var/log/italc" := ["ItalcService.log"]]>
               (<["/tmp" := ["ItalcService.log"]]> ∅);
  contents := <["/var/log/italc/ItalcService.log" := "current"]>
                (<["/tmp/ItalcService.log" := "stale"]> ∅);
|}.

(** A machine with a settings file saved earlier. *)
Definition archived : Sys := {|
  backend := <["Language" := VString "de"]> (<["LogLevel" := VString "4"]> ∅);
  writable := true;
  settings := <["/home/admin/classroom.json" := <["Language" := VString "fr"]> ∅]> ∅;
  listing := ∅;
  contents := ∅;
|}.

(** A machine that keeps the logs of two services in /var/log/italc and
    has nothing in /tmp. *)
Definition twoServices : Sys := {|
  backend := <["LogFileDirectory" := VString "/var/log/italc"]>
               (<["Language" := VString "de"]> (<["LogLevel" := VString "4"]> ∅));
  writable := true;
  settings := ∅;
  listing := <["/var/log/italc" := ["ItalcService.log"; "ItalcMaster.log"]]> ∅;
  contents := <["/var/log/italc/ItalcService.log" := "service"]>
                (<["/var/log/italc/ItalcMaster.log" := "master"]> ∅);
|}.

(** The window as constructed on each machine. *)
Definition window (y : Sys) : State Sys string :=
  MainWindow collaborators ∅ [""] true y.

End Scenario.

(** * Properties *)

(** ** Strings *)
Section Strings.

Lemma chars_app (a b : string) : Qt.chars (a ++ b) = (Qt.chars a ++ Qt.chars b)%list.
Proof.
  induction a as [|c a IH]; simpl; [reflexivity|].
  unfold Qt.chars in *. simpl. now rewrite IH.
Qed.

Lemma chars_inj (a b : string) : Qt.chars a = Qt.chars b -> a = b.
Proof.
  intros Hab. rewrite <- (string_of_list_ascii_of_string a),
    <- (string_of_list_ascii_of_string b).
  unfold Qt.chars in Hab. now rewrite Hab.
Qed.

Lemma chars_of_list (l : list ascii) : Qt.chars (string_of_list_ascii l) = l.
Proof. apply list_ascii_of_string_of_list_ascii. Qed.

Lemma startsWithChars_true cs (s pre : list ascii) :
  Qt.startsWithChars cs s pre = true <->
  exists t rest, s = (t ++ rest)%list /\
                 Forall2 (fun c p => Qt.eqChar cs c p = true) t pre.
Proof.
  revert s. induction pre as [|p pre IH]; intros s; simpl.
  - split; [intros _|intros _; reflexivity].
    exists (@nil ascii), s. split; [reflexivity|apply List.Forall2_nil].
  - destruct s as [|c s].
    + split; [discriminate|].
      intros (t & rest & Hs & Hall). inversion Hall; subst. discriminate.
    + rewrite andb_true_iff, IH. split.
      * intros (Hc & t & rest & -> & Hall).
        exists (c :: t), rest. split; [reflexivity|now constructor].
      * intros (t & rest & Hs & Hall).
        inversion Hall as [|c' p' t' pre' Hc Hall']; subst.
        simpl in Hs. injection Hs as -> ->.
        split; [assumption|]. now exists t', rest.
Qed.

Lemma eqChar_lists cs (t u : list ascii) :
  Forall2 (fun c p => Qt.eqChar cs c p = true) t u <->
  Qt.sameText cs (string_of_list_ascii t) (string_of_list_ascii u).
Proof.
  unfold Qt.sameText. destruct cs; simpl.
  - rewrite !chars_of_list. split.
    + induction 1 as [|c p t u Hc _ IH]; simpl; [reflexivity|].
      apply Ascii.eqb_eq in Hc. now rewrite Hc, IH.
    + revert u. induction t as [|c t IH]; intros [|p u] Heq;
        try discriminate; [apply List.Forall2_nil|].
      simpl in Heq. injection Heq as Hc Heq.
      apply List.Forall2_cons; [now apply Ascii.eqb_eq|now apply IH].
  - split.
    + induction 1 as [|c p t u Hc _ IH]; simpl; [reflexivity|].
      apply Ascii.eqb_eq in Hc. now rewrite Hc, IH.
    + intros Heq. apply (f_equal Qt.chars) in Heq. rewrite !chars_of_list in Heq.
      subst u. induction t as [|c t IH]; [apply List.Forall2_nil|].
      apply List.Forall2_cons; [apply Ascii.eqb_refl|assumption].
Qed.

Lemma Forall2_rev {A C} (R : A -> C -> Prop) l k :
  Forall2 R l k -> Forall2 R (rev l) (rev k).
Proof.
  induction 1 as [|a c l k Hac _ IH]; simpl; [apply List.Forall2_nil|].
  apply Forall2_app; [assumption|].
  apply List.Forall2_cons; [assumption|apply List.Forall2_nil].
Qed.

Lemma endsWith_hasSuffix (s suffix : string) cs :
  Qt.endsWith s suffix cs = true <-> Qt.hasSuffix cs s suffix.
Proof.
  unfold Qt.endsWith, Qt.hasSuffix. rewrite startsWithChars_true. split.
  - intros (t & rest & Hs & Hall).
    exists (string_of_list_ascii (rev rest)), (string_of_list_ascii (rev t)).
    split.
    + apply chars_inj. rewrite chars_app, !chars_of_list, <- rev_app_distr, <- Hs.
      now rewrite rev_involutive.
    + rewrite <- (string_of_list_ascii_of_string suffix).
      apply eqChar_lists. apply Forall2_rev in Hall.
      now rewrite rev_involutive in Hall.
  - intros (stem & ending & -> & Hsame).
    exists (rev (Qt.chars ending)), (rev (Qt.chars stem)). split.
    + now rewrite chars_app, rev_app_distr.
    + apply Forall2_rev. apply eqChar_lists.
      unfold Qt.chars. now rewrite !string_of_list_ascii_of_string.
Qed.

Lemma append_json_changes (f : string) : f ++ ".json" <> f.
Proof.
  intros Heq. apply (f_equal Qt.chars) in Heq. rewrite chars_app in Heq.
  apply (f_equal (@List.length ascii)) in Heq.
  rewrite List.length_app in Heq. simpl in Heq. lia.
Qed.

End Strings.

(** ** The window *)
Section Window.

Context {Sys Page : Type} `{ConfigurationPage Page}.
Variable E : Collaborators Sys.
Variable B : BuildConfig.

Abbreviation St := (State Sys Page).

Lemma configurationChanged_twice (s : St) :
  configurationChanged (configurationChanged s) = configurationChanged s.
Proof. reflexivity. Qed.

Lemma deliver_deliver a b (s : St) :
  deliver b (deliver a s) = deliver (a || b) s.
Proof.
  unfold deliver. destruct a, b, (connected s) eqn:Hc; simpl;
    rewrite ?Hc; reflexivity.
Qed.

Lemma config_deliver b (s : St) : config (deliver b s) = config s.
Proof. unfold deliver. now destruct (b && connected s). Qed.

Lemma pages_deliver b (s : St) : pages (deliver b s) = pages s.
Proof. unfold deliver. now destruct (b && connected s). Qed.

Lemma sys_deliver b (s : St) : sys (deliver b s) = sys s.
Proof. unfold deliver. now destruct (b && connected s). Qed.

Lemma trace_deliver b (s : St) : trace (deliver b s) = trace s.
Proof. unfold deliver. now destruct (b && connected s). Qed.

Lemma connected_deliver b (s : St) : connected (deliver b s) = connected s.
Proof. unfold deliver. now destruct (b && connected s). Qed.

Lemma in_sync_deliver b (s : St) : in_sync s -> in_sync (deliver b s).
Proof. unfold deliver, in_sync. now destruct (b && connected s). Qed.

(** The loop over the pages hands every page the same configuration and
    changes nothing of the window but, through the slot, the two flags. *)
Lemma forEachPage_eq f (ps : list Page) (s : St) :
  forEachPage f ps s =
    (map (fun page => fst (f (config s) page)) ps,
     deliver (existsb (fun page => snd (f (config s) page)) ps) s).
Proof.
  revert s. induction ps as [|page rest IH]; intros s; simpl.
  - unfold deliver. reflexivity.
  - destruct (f (config s) page) as [page' emitted] eqn:Hf.
    rewrite IH, config_deliver, deliver_deliver. reflexivity.
Qed.

Lemma onPages_eq f (s : St) :
  onPages f s =
    set_pages (map (fun page => fst (f (config s) page)) (pages s))
      (deliver (existsb (fun page => snd (f (config s) page)) (pages s)) s).
Proof. unfold onPages. now rewrite forEachPage_eq. Qed.

Lemma config_onPages f (s : St) : config (onPages f s) = config s.
Proof. rewrite onPages_eq. simpl. apply config_deliver. Qed.

Lemma pages_onPages f (s : St) :
  pages (onPages f s) = map (fun page => fst (f (config s) page)) (pages s).
Proof. now rewrite onPages_eq. Qed.

Lemma sys_onPages f (s : St) : sys (onPages f s) = sys s.
Proof. rewrite onPages_eq. simpl. apply sys_deliver. Qed.

Lemma trace_onPages f (s : St) : trace (onPages f s) = trace s.
Proof. rewrite onPages_eq. simpl. apply trace_deliver. Qed.

Lemma connected_onPages f (s : St) : connected (onPages f s) = connected s.
Proof. rewrite onPages_eq. simpl. apply connected_deliver. Qed.

(** The layers as [reset] merges them. *)
Lemma merged_layers (c : DataMap) (y : Sys) :
  Configuration.merge
    (Configuration.merge (Configuration.clear c) (defaultConfiguration E))
    (localBackend E y)
  = localBackend E y ∪ defaultConfiguration E.
Proof.
  unfold Configuration.merge, Configuration.clear.
  now rewrite (right_id_L ∅ (∪)).
Qed.

Lemma config_reset onlyUI (s : St) :
  config (reset E onlyUI s) =
    if onlyUI then config s
    else localBackend E (sys s) ∪ defaultConfiguration E.
Proof.
  unfold reset. simpl. rewrite config_onPages.
  destruct onlyUI; simpl; [reflexivity|apply merged_layers].
Qed.

Lemma pages_reset onlyUI (s : St) :
  pages (reset E onlyUI s) =
    map (fun page => fst (resetWidgets (config (reset E onlyUI s)) page)) (pages s).
Proof.
  rewrite config_reset. unfold reset. simpl. rewrite pages_onPages.
  destruct onlyUI; simpl; [reflexivity|]. now rewrite merged_layers.
Qed.

Lemma sys_reset onlyUI (s : St) : sys (reset E onlyUI s) = sys s.
Proof. unfold reset. simpl. rewrite sys_onPages. now destruct onlyUI. Qed.

Lemma trace_reset onlyUI (s : St) : trace (reset E onlyUI s) = trace s.
Proof. unfold reset. simpl. rewrite trace_onPages. now destruct onlyUI. Qed.

Lemma connected_reset onlyUI (s : St) : connected (reset E onlyUI s) = connected s.
Proof. unfold reset. simpl. rewrite connected_onPages. now destruct onlyUI. Qed.

Lemma in_sync_reset onlyUI (s : St) : in_sync (reset E onlyUI s).
Proof. reflexivity. Qed.

Lemma in_sync_apply (s : St) : in_sync s -> in_sync (apply E s).
Proof.
  unfold apply. destruct (applyConfiguration E (config s) (sys s)) as [[] sys'];
    intros Hs; [reflexivity|exact Hs].
Qed.

Lemma in_sync_loadSettingsFromFile fileName (s : St) :
  in_sync s -> in_sync (loadSettingsFromFile E fileName s).
Proof.
  unfold loadSettingsFromFile. destruct (Qt.isEmpty fileName); simpl.
  - intros Hs. exact Hs.
  - intros _. destruct (load E System fileName _ _). reflexivity.
Qed.

Lemma in_sync_saveSettingsToFile fileName (s : St) :
  in_sync s -> in_sync (saveSettingsToFile E fileName s).
Proof.
  unfold saveSettingsToFile. destruct (Qt.isEmpty fileName); simpl.
  - intros Hs. exact Hs.
  - intros _. destruct (flush E System _ _ _). reflexivity.
Qed.

End Window.

(** ** The bug report *)
Section BugReport.

Context {Sys Page : Type} `{ConfigurationPage Page}.
Variable E : Collaborators Sys.
Variable B : BuildConfig.

Abbreviation St := (State Sys Page).

(** *** Documents *)

Lemma group_insert p (g d : DataMap) :
  Configuration.group p (<[p := VMap g]> d) = g.
Proof. unfold Configuration.group. now rewrite lookup_insert_eq. Qed.

Lemma group_setValue k v p (d : DataMap) :
  Configuration.group p (Configuration.setValue k v p d)
  = <[k := v]> (Configuration.group p d).
Proof.
  unfold Configuration.setValue. unfold Configuration.group at 1.
  now rewrite lookup_insert_eq.
Qed.

Lemma setValue_setValue k1 v1 k2 v2 p (d : DataMap) :
  Configuration.setValue k2 v2 p (Configuration.setValue k1 v1 p d)
  = <[p := VMap (<[k2 := v2]> (<[k1 := v1]> (Configuration.group p d)))]> d.
Proof.
  unfold Configuration.setValue at 1. rewrite group_setValue.
  unfold Configuration.setValue. now rewrite insert_insert_eq.
Qed.

(** Storing entries in the group LogFiles, one after the other. *)
Lemma addEntries_eq (es : list (string * Value)) (d : DataMap) :
  fold_left (fun o e => Configuration.setValue e.1 e.2 "LogFiles" o) es d
  = match es with
    | [] => d
    | _ :: _ =>
        <["LogFiles" :=
            VMap (fold_left (fun g e => <[e.1 := e.2]> g) es
                    (Configuration.group "LogFiles" d))]> d
    end.
Proof.
  revert d. induction es as [|e es IH]; intros d; [reflexivity|].
  simpl. rewrite IH. destruct es as [|e' es]; [reflexivity|].
  rewrite group_setValue. unfold Configuration.setValue.
  now rewrite insert_insert_eq.
Qed.

Lemma lookup_entries k (es : list (string * Value)) (g : DataMap) :
  fold_left (fun g e => <[e.1 := e.2]> g) es g !! k
  = match fold_left (fun found e => if String.eqb e.1 k then Some e.2 else found)
                    es None with
    | Some v => Some v
    | None => g !! k
    end.
Proof.
  induction es as [|[k' v'] es IH] using rev_ind; [reflexivity|].
  rewrite !fold_left_app. simpl.
  destruct (String.eqb_spec k' k) as [->|Hne].
  - now rewrite lookup_insert_eq.
  - now rewrite lookup_insert_ne.
Qed.

(** *** The trace *)

Lemma extend_nil (s : St) : extend [] s = s.
Proof. destruct s. unfold extend. simpl. now rewrite app_nil_r. Qed.

Lemma extend_record e es (s : St) : extend es (record e s) = extend (e :: es) s.
Proof. unfold extend, record. simpl. now rewrite <- app_assoc. Qed.

Lemma extend_extend es1 es2 (s : St) :
  extend es2 (extend es1 s) = extend (es1 ++ es2) s.
Proof. unfold extend. simpl. now rewrite <- app_assoc. Qed.

Lemma record_extend e es (s : St) : record e (extend es s) = extend (es ++ [e]) s.
Proof. unfold extend, record. simpl. now rewrite <- app_assoc. Qed.

(** *** The loops over the log files *)

Abbreviation store :=
  (fun (o : DataMap) (e : string * Value) => Configuration.setValue e.1 e.2 "LogFiles" o).

Lemma addLogFiles_eq d (fs : list string) (obj : DataMap) (s : St) :
  fold_left (addLogFile E d) fs (obj, s)
  = (fold_left store (map (fun f => logEntry E s (d, f)) fs) obj,
     extend (map (fun f => EvReadFile (absoluteFilePath E d f)) fs) s).
Proof.
  revert obj s. induction fs as [|f fs IH]; intros obj s; simpl.
  - now rewrite extend_nil.
  - rewrite IH, extend_record. reflexivity.
Qed.

Lemma addLogDirectory_eq (obj : DataMap) (s : St) p :
  addLogDirectory E (obj, s) p
  = (fold_left store
       (map (logEntry E s) (map (pair p) (entryList E p ["Italc*.log"] (sys s)))) obj,
     extend (directoryEvents E s p) s).
Proof.
  unfold addLogDirectory. rewrite addLogFiles_eq, extend_record.
  rewrite map_map. reflexivity.
Qed.

Lemma addLogDirectories_eq (ps : list string) (obj : DataMap) (s : St) :
  fold_left (addLogDirectory E) ps (obj, s)
  = (fold_left store
       (map (logEntry E s)
          (flat_map (fun p => map (pair p) (entryList E p ["Italc*.log"] (sys s))) ps))
       obj,
     extend (flat_map (directoryEvents E s) ps) s).
Proof.
  revert obj s. induction ps as [|p ps IH]; intros obj s.
  - simpl. now rewrite extend_nil.
  - cbn [fold_left flat_map]. rewrite addLogDirectory_eq, IH, extend_extend.
    rewrite map_app, fold_left_app. reflexivity.
Qed.

Lemma systemInformation_eq (s : St) :
  systemInformation E B s
  = ((systemInformation E B s).1.1, (systemInformation E B s).1.2,
     extend (systemEvents B) s).
Proof.
  unfold systemInformation, systemEvents. destruct (platform B); simpl.
  - now rewrite extend_nil.
  - f_equal. unfold record, extend. simpl. now rewrite <- app_assoc.
Qed.

(** The document before the log files are added. *)
Lemma general_and_configuration os machineInfo (c : DataMap) :
  Configuration.addSubObject c "Configuration"
    (Configuration.setValue "Version" (VString (ITALC_VERSION B)) "General"
       (Configuration.setValue "BuildType" (VString (buildType B)) "General"
          (Configuration.setValue "MachineInfo" (VString machineInfo) "General"
             (Configuration.setValue "OS" (VString os) "General"
                Configuration.newObject))))
  = <["Configuration" := VMap c]>
      (<["General" := VMap (generalGroup B os machineInfo)]> ∅).
Proof.
  unfold Configuration.addSubObject, Configuration.newObject. f_equal.
Qed.

Lemma assembleBugReport_eq (s : St) :
  assembleBugReport E B s
  = (fold_left store (map (logEntry E s) (logFiles E B s))
       (<["Configuration" := VMap (config s)]>
          (<["General" :=
               VMap (generalGroup B (systemInformation E B s).1.1
                                    (systemInformation E B s).1.2)]> ∅)),
     extend (systemEvents B ++ logEvents E B s) s).
Proof.
  unfold assembleBugReport. pose proof (systemInformation_eq s) as Hinfo.
  destruct (systemInformation E B s) as [[os machineInfo] s1].
  cbn [fst snd] in Hinfo. injection Hinfo as ->. cbn [fst snd].
  rewrite general_and_configuration, addLogDirectories_eq, extend_extend.
  reflexivity.
Qed.

End BugReport.

(** ** The behaviour of the window's operations *)
Section Operations.

Context {Sys Page : Type} `{ConfigurationPage Page}.
Variable E : Collaborators Sys.
Variable B : BuildConfig.

Abbreviation St := (State Sys Page).

(** C1.  Whatever the dirty flag is when [apply] starts: if the commit
    operation [ConfiguratorCore::applyConfiguration] succeeds, the dirty
    flag is cleared and the button box disabled (after the pages have
    applied the configuration); if it fails, both keep the values they had
    before the call, so the dirty flag of a dirty window is cleared exactly
    when the commit succeeds.  Either way the snapshot is untouched and the
    window does nothing to the outside but to call the commit operation: no
    dialog, no error report. *)
Theorem apply_clears_exactly_on_success (s : St) :
  let committed := applyConfiguration E (config s) (sys s) in
  let s' := apply E s in
  m_configChanged s' = (if committed.1 then false else m_configChanged s) /\
  buttonBoxEnabled s' = (if committed.1 then false else buttonBoxEnabled s) /\
  config s' = config s /\
  pages s' = (if committed.1
              then map (fun page => fst (pageApplyConfiguration (config s) page)) (pages s)
              else pages s) /\
  sys s' = committed.2 /\
  trace s' = (trace s ++ [EvApplyConfiguration (config s)])%list.
Proof.
  unfold apply. destruct (applyConfiguration E (config s) (sys s)) as [ok sys'].
  destruct ok; simpl.
  - rewrite config_onPages, pages_onPages, sys_onPages, trace_onPages. simpl.
    repeat split; reflexivity.
  - repeat split; reflexivity.
Qed.

(** C2.  With a non-empty file name chosen, [saveSettingsToFile] hands the
    current snapshot to the store at the normalised path, and afterwards the
    dirty flag has the value it had before the call, whatever the store did
    in between (written or not, signal emitted or not); the button box
    follows the flag.  The snapshot is untouched and the commit operation
    is not called: saving is not applying. *)
Theorem saveSettingsToFile_preserves_dirty_flag (fileName : string) (s : St) :
  Qt.isEmpty fileName = false ->
  let file := settingsFileName fileName in
  let s' := saveSettingsToFile E fileName s in
  m_configChanged s' = m_configChanged s /\
  buttonBoxEnabled s' = m_configChanged s /\
  config s' = config s /\
  pages s' = pages s /\
  sys s' = (flush E System file (config s) (sys s)).1 /\
  trace s' = (trace s ++ [EvGetSaveFileName "Save settings to file";
                          EvStoreFlush System file (config s)])%list.
Proof.
  intros Hname. unfold saveSettingsToFile. rewrite Hname. simpl.
  destruct (flush E System (settingsFileName fileName) (config s) (sys s))
    as [sys' emitted].
  simpl. rewrite config_deliver, pages_deliver, sys_deliver, trace_deliver. simpl.
  rewrite <- app_assoc. repeat split; reflexivity.
Qed.

(** C3.  The two path normalisations.  The settings file name is left as
    it is when it ends in .json whatever the case of the letters, and gets
    .json appended otherwise; the bug report file name is left as it is
    when it ends in .json literally, and gets .json appended otherwise.  So
    report.JSON is kept by the first and becomes report.JSON.json under the
    second, and report becomes report.json. *)
Theorem file_name_normalisations_differ (fileName : string) :
  ((Qt.hasSuffix Qt.CaseInsensitive fileName ".json"
    /\ settingsFileName fileName = fileName)
   \/ (~ Qt.hasSuffix Qt.CaseInsensitive fileName ".json"
       /\ settingsFileName fileName = fileName ++ ".json")) /\
  ((Qt.hasSuffix Qt.CaseSensitive fileName ".json"
    /\ bugReportFileName fileName = fileName)
   \/ (~ Qt.hasSuffix Qt.CaseSensitive fileName ".json"
       /\ bugReportFileName fileName = fileName ++ ".json")) /\
  settingsFileName "report.JSON" = "report.JSON" /\
  bugReportFileName "report.JSON" = "report.JSON.json" /\
  bugReportFileName "report" = "report.json".
Proof.
  split; [|split; [|repeat split; reflexivity]].
  - unfold settingsFileName.
    destruct (Qt.endsWith fileName ".json" Qt.CaseInsensitive) eqn:Hends; simpl.
    + left. split; [now apply endsWith_hasSuffix|reflexivity].
    + right. split; [|reflexivity].
      intros Hsuffix. apply endsWith_hasSuffix in Hsuffix. congruence.
  - unfold bugReportFileName.
    destruct (Qt.endsWith fileName ".json" Qt.CaseSensitive) eqn:Hends; simpl.
    + left. split; [now apply endsWith_hasSuffix|reflexivity].
    + right. split; [|reflexivity].
      intros Hsuffix. apply endsWith_hasSuffix in Hsuffix. congruence.
Qed.

(** C4.  [reset(false)] replaces the snapshot by the built-in defaults
    merged with the local-backend configuration, the local value winning
    wherever both define a key, whatever the snapshot held before;
    [reset(true)] leaves the snapshot as it is.  With either argument every
    page is resynchronised to the snapshot as it then stands, the dirty
    flag is cleared and the button box disabled. *)
Theorem reset_merges_and_clears (onlyUI : bool) (s : St) :
  let s' := reset E onlyUI s in
  (forall key, config (reset E false s) !! key =
                 match localBackend E (sys s) !! key with
                 | Some v => Some v
                 | None => defaultConfiguration E !! key
                 end) /\
  config (reset E true s) = config s /\
  pages s' = map (fun page => fst (resetWidgets (config s') page)) (pages s) /\
  m_configChanged s' = false /\
  buttonBoxEnabled s' = false.
Proof.
  cbv zeta. split; [|split; [|split; [|split; reflexivity]]].
  - intros key. rewrite config_reset, lookup_union.
    destruct (localBackend E (sys s) !! key), (defaultConfiguration E !! key);
      reflexivity.
  - now rewrite config_reset.
  - apply pages_reset.
Qed.

(** C6.  With a non-empty file name chosen, [loadSettingsFromFile] is
    exactly this sequence: the store loads the file into the live snapshot,
    then [reset(true)] resynchronises the pages and leaves the snapshot as
    loaded, then [configurationChanged] runs.  So afterwards the snapshot is
    what the store loaded, the pages show it, the dirty flag is set and the
    button box enabled. *)
Theorem loadSettingsFromFile_sequence (fileName : string) (s : St) :
  Qt.isEmpty fileName = false ->
  let asked := record (EvGetOpenFileName "Load settings from file") s in
  let loaded := load E System fileName (config s) (sys s) in
  let s1 := deliver loaded.2
              (set_config loaded.1 (record (EvStoreLoad System fileName) asked)) in
  let s2 := reset E true s1 in
  let s' := loadSettingsFromFile E fileName s in
  s' = configurationChanged s2 /\
  config s1 = loaded.1 /\
  config s2 = config s1 /\
  config s' = loaded.1 /\
  pages s' = map (fun page => fst (resetWidgets loaded.1 page)) (pages s) /\
  m_configChanged s' = true /\
  buttonBoxEnabled s' = true /\
  sys s' = sys s /\
  trace s' = (trace s ++ [EvGetOpenFileName "Load settings from file";
                          EvStoreLoad System fileName])%list.
Proof.
  intros Hname. cbv zeta. unfold loadSettingsFromFile. rewrite Hname.
  cbn [negb record config sys].
  destruct (load E System fileName (config s) (sys s)) as [c emitted].
  cbn [fst snd].
  split; [reflexivity|]. split; [now rewrite config_deliver|].
  split; [now rewrite config_reset|].
  cbn [configurationChanged set_m_configChanged setEnabled config pages
       m_configChanged buttonBoxEnabled sys trace].
  rewrite pages_reset, config_reset, sys_reset, trace_reset.
  rewrite config_deliver, pages_deliver, sys_deliver, trace_deliver. simpl.
  rewrite <- app_assoc. repeat split; reflexivity.
Qed.

(** C7.  The window as constructed holds the merge of the defaults and the
    local-backend configuration, and it is dirty, with the button box
    enabled, exactly when the local-backend configuration has fewer keys
    than that merge; otherwise the dirty flag is false and the button box
    disabled. *)
Theorem MainWindow_dirty_when_local_incomplete
    (c0 : DataMap) (ps : list Page) (enabled0 : bool) (y : Sys) :
  let s := MainWindow E c0 ps enabled0 y in
  config s = localBackend E y ∪ defaultConfiguration E /\
  m_configChanged s = bool_decide (size (localBackend E y) < size (config s)) /\
  buttonBoxEnabled s = m_configChanged s.
Proof.
  cbv zeta. unfold MainWindow.
  set (s0 := {| config := c0; pages := ps; buttonBoxEnabled := enabled0;
                m_configChanged := false; connected := false;
                sys := y; trace := [] |}).
  rewrite sys_reset, config_reset. unfold reset_default. cbn [sys s0].
  destruct (Nat.ltb_spec (size (localBackend E y))
              (size (localBackend E y ∪ defaultConfiguration E))) as [Hlt|Hge];
    cbn [set_connected set_pages configurationChanged setEnabled
         set_m_configChanged config m_configChanged buttonBoxEnabled];
    rewrite config_reset; cbn [sys s0].
  - rewrite bool_decide_eq_true_2 by exact Hlt. repeat split; reflexivity.
  - rewrite bool_decide_eq_false_2 by lia. repeat split; reflexivity.
Qed.

(** C8.  A close request on a dirty window asks the question Unsaved
    settings, and the close is accepted exactly when the answer is Yes; any
    other answer has the event ignored.  A close request on a clean window
    is accepted without any question.  In no case does [closeEvent] touch
    the snapshot, the pages, the dirty flag or the button box. *)
Theorem closeEvent_needs_yes_when_dirty (answer : Z) (s : St) :
  let r := closeEvent answer s in
  config r.2 = config s /\
  pages r.2 = pages s /\
  m_configChanged r.2 = m_configChanged s /\
  buttonBoxEnabled r.2 = buttonBoxEnabled s /\
  sys r.2 = sys s /\
  if m_configChanged s
  then (r.1 = true <-> answer = Qt.Yes) /\
       trace r.2 = (trace s ++ [EvQuestion "Unsaved settings"
                                  "There are unsaved settings. Quit anyway?"])%list
  else r.1 = true /\ trace r.2 = trace s.
Proof.
  cbv zeta. unfold closeEvent. destruct (m_configChanged s) eqn:Hdirty.
  - destruct (Z.eqb_spec answer Qt.Yes) as [Hyes|Hother]; simpl;
      rewrite ?Hdirty; repeat split; try reflexivity; try assumption;
      intros; congruence.
  - simpl. rewrite ?Hdirty. repeat split; reflexivity.
Qed.

(** C9.  When the dialog of any of the three actions comes back empty
    (cancelled), the action ends there: the result is the state it started
    from with the dialog as the only thing that happened: no store or file
    is read or written, no message is shown, and the snapshot, the dirty
    flag and the button box are as before. *)
Theorem empty_dialog_result_abandons (s : St) :
  loadSettingsFromFile E "" s = record (EvGetOpenFileName "Load settings from file") s /\
  saveSettingsToFile E "" s = record (EvGetSaveFileName "Save settings to file") s /\
  generateBugReportArchive E B "" s
    = record (EvFileSystemBrowser "Save bug report archive") s /\
  abandonedAfter (EvGetOpenFileName "Load settings from file") s
    (loadSettingsFromFile E "" s) /\
  abandonedAfter (EvGetSaveFileName "Save settings to file") s
    (saveSettingsToFile E "" s) /\
  abandonedAfter (EvFileSystemBrowser "Save bug report archive") s
    (generateBugReportArchive E B "" s).
Proof.
  unfold abandonedAfter. repeat split; reflexivity.
Qed.

(** *** The flags over the life of the window *)

Lemma in_sync_MainWindow (c0 : DataMap) (ps : list Page) (enabled0 : bool) (y : Sys) :
  in_sync (MainWindow E c0 ps enabled0 y).
Proof.
  unfold MainWindow, in_sync.
  destruct (size _ <? size _)%nat; reflexivity.
Qed.

Lemma in_sync_generateBugReportArchive outfile (s : St) :
  in_sync s -> in_sync (generateBugReportArchive E B outfile s).
Proof.
  unfold generateBugReportArchive. destruct (Qt.isEmpty outfile).
  - intros Hs. exact Hs.
  - rewrite assembleBugReport_eq.
    destruct (flush E BugReportArchive _ _ _) as [sys' emitted].
    intros Hs. exact Hs.
Qed.

Lemma in_sync_step (a : Action) (s : St) : in_sync s -> in_sync (step E B a s).
Proof.
  intros Hs. destruct a as [onlyUI| | |btn|fileName|fileName|outfile|answer|ps c emitted|y];
    cbn [step].
  - apply in_sync_reset.
  - now apply in_sync_apply.
  - reflexivity.
  - unfold resetOrApply.
    destruct (negb (Z.land btn Qt.Apply =? 0)%Z); [now apply in_sync_apply|].
    destruct (negb (Z.land btn Qt.Reset =? 0)%Z); [apply in_sync_reset|exact Hs].
  - now apply in_sync_loadSettingsFromFile.
  - now apply in_sync_saveSettingsToFile.
  - now apply in_sync_generateBugReportArchive.
  - unfold closeEvent. destruct (m_configChanged s) eqn:Hdirty; [|exact Hs].
    destruct (negb (answer =? Qt.Yes)%Z); exact Hs.
  - apply in_sync_deliver. exact Hs.
  - exact Hs.
Qed.

(** C10.  In every state the window can be in (as constructed, and after
    any sequence of its operations, of edits by the user and of changes
    outside, whatever the collaborators do), the button box is enabled
    exactly when the dirty flag is set; and so it is again after any
    further operation. *)
Theorem button_box_enabled_iff_dirty (s : St) :
  reachable E B s ->
  in_sync s /\ forall a, in_sync (step E B a s).
Proof.
  intros Hreach.
  assert (Hs : in_sync s).
  { induction Hreach as [c0 ps enabled0 y|a s _ IH].
    - apply in_sync_MainWindow.
    - now apply in_sync_step. }
  split; [exact Hs|]. intros a. now apply in_sync_step.
Qed.

(** *** The bug report *)

Lemma group_addEntries (es : list (string * Value)) (d : DataMap) :
  Configuration.group "LogFiles"
    (fold_left (fun o e => Configuration.setValue e.1 e.2 "LogFiles" o) es d)
  = fold_left (fun g e => <[e.1 := e.2]> g) es (Configuration.group "LogFiles" d).
Proof.
  revert d. induction es as [|e es IH]; intros d; [reflexivity|].
  simpl. now rewrite IH, group_setValue.
Qed.

Lemma lookup_addEntries_ne k (es : list (string * Value)) (d : DataMap) :
  k <> "LogFiles" ->
  fold_left (fun o e => Configuration.setValue e.1 e.2 "LogFiles" o) es d !! k = d !! k.
Proof.
  intros Hk. rewrite addEntries_eq. destruct es; [reflexivity|].
  now rewrite lookup_insert_ne.
Qed.

Lemma directoryEvents_read_only (s : St) p :
  Forall (fun e => isStoreFlush e = false) (directoryEvents E s p).
Proof.
  unfold directoryEvents. apply List.Forall_cons; [reflexivity|].
  apply List.Forall_forall. intros e Hin. apply List.in_map_iff in Hin.
  destruct Hin as (f & <- & _). reflexivity.
Qed.

Lemma assembling_reads_only (s : St) :
  Forall (fun e => isStoreFlush e = false) (systemEvents B ++ logEvents E B s).
Proof.
  apply List.Forall_app. split.
  - unfold systemEvents. destruct (platform B); repeat constructor.
  - unfold logEvents, logPaths. cbn [flat_map]. rewrite app_nil_r.
    apply List.Forall_app. split; apply directoryEvents_read_only.
Qed.

Lemma systemInformation_record e (s : St) :
  (systemInformation E B (record e s)).1 = (systemInformation E B s).1.
Proof. unfold systemInformation. destruct (platform B); reflexivity. Qed.

(** X17.  With a non-empty file name chosen, [generateBugReportArchive]
    assembles a document with the group General holding exactly OS,
    MachineInfo, BuildType and Version, the BuildType being x86, x86_64 or
    unknown; the group Configuration holding a copy of the current
    snapshot; and the group LogFiles, which holds under each base name the
    base64 encoding of the compressed contents of the last file visited
    with that base name, and nothing when no file was found.  The document
    has no other top-level key.  Until the document is complete the window
    only reads; then it hands the document to the store once, at the
    normalised path, and shows the confirmation, with log files or without;
    the outside world is left as that one write leaves it. *)
Theorem bug_report_as_assembled (outfile : string) (s : St) :
  Qt.isEmpty outfile = false ->
  let asked := record (EvFileSystemBrowser "Save bug report archive") s in
  let doc := (assembleBugReport E B asked).1 in
  let file := bugReportFileName outfile in
  let info := systemInformation E B s in
  doc !! "General" = Some (VMap (generalGroup B info.1.1 info.1.2)) /\
  In (buildType B) ["x86"; "x86_64"; "unknown"] /\
  doc !! "Configuration" = Some (VMap (config s)) /\
  (forall k, Configuration.group "LogFiles" doc !! k
             = lastEntry k (map (logEntry E s) (logFiles E B s))) /\
  (forall k, k <> "General" -> k <> "Configuration" -> k <> "LogFiles" ->
             doc !! k = None) /\
  Forall (fun e => isStoreFlush e = false) (systemEvents B ++ logEvents E B s) /\
  trace (generateBugReportArchive E B outfile s)
  = (trace s ++ [EvFileSystemBrowser "Save bug report archive"]
       ++ systemEvents B ++ logEvents E B s
       ++ [EvStoreFlush BugReportArchive file doc; savedMessage E file])%list /\
  sys (generateBugReportArchive E B outfile s)
  = (flush E BugReportArchive file doc (sys s)).1.
Proof.
  intros Hname. cbv zeta. unfold generateBugReportArchive. rewrite Hname.
  rewrite assembleBugReport_eq. cbn [fst snd].
  change (logFiles E B (record (EvFileSystemBrowser "Save bug report archive") s))
    with (logFiles E B s).
  change (logEvents E B (record (EvFileSystemBrowser "Save bug report archive") s))
    with (logEvents E B s).
  change (logEntry E (record (EvFileSystemBrowser "Save bug report archive") s))
    with (logEntry E s).
  rewrite systemInformation_record.
  change (config (record (EvFileSystemBrowser "Save bug report archive") s))
    with (config s).
  set (es := map (logEntry E s) (logFiles E B s)).
  set (base := <["Configuration" := VMap (config s)]>
                 (<["General" := VMap (generalGroup B (systemInformation E B s).1.1
                                         (systemInformation E B s).1.2)]> ∅)).
  split; [now rewrite lookup_addEntries_ne|].
  split; [unfold buildType; destruct (ITALC_HOST_X86 B), (ITALC_HOST_X86_64 B);
          simpl; auto|].
  split; [now rewrite lookup_addEntries_ne|].
  split.
  { intros k. rewrite group_addEntries, lookup_entries. unfold lastEntry.
    destruct (fold_left _ es None); reflexivity. }
  split.
  { intros k Hg Hc Hl. rewrite lookup_addEntries_ne by exact Hl.
    subst base. now rewrite !lookup_insert_ne. }
  split; [apply assembling_reads_only|].
  cbn [sys extend].
  destruct (flush E BugReportArchive _ _ _) as [sys' emitted].
  cbn [trace sys record set_sys extend fst]. rewrite <- !app_assoc.
  split; reflexivity.
Qed.

End Operations.

(** ** The window at work on the small installation *)

Example endsWith_ignores_case :
  Qt.endsWith "report.JSON" ".json" Qt.CaseInsensitive = true
  /\ Qt.endsWith "report.JSON" ".json" Qt.CaseSensitive = false.
Proof. split; reflexivity. Qed.

Example baseName_stops_at_first_dot :
  Qt.baseName "ItalcService.1.log" = "ItalcService".
Proof. reflexivity. Qed.

(** On the quiet machine the local backend has one key of the two the
    merge has, so the window comes up dirty; on the logging machine the
    local backend is complete and the window comes up clean. *)
Example windows_as_constructed :
  m_configChanged (Scenario.window Scenario.quiet) = true
  /\ m_configChanged (Scenario.window Scenario.logging) = false
  /\ pages (Scenario.window Scenario.quiet) = ["de"].
Proof. repeat split; vm_compute; reflexivity. Qed.

(** A failed commit leaves the window dirty, a successful one cleans it. *)
Example apply_on_the_machines :
  m_configChanged (apply Scenario.collaborators (Scenario.window Scenario.readonly)) = true
  /\ m_configChanged (apply Scenario.collaborators (Scenario.window Scenario.quiet)) = false.
Proof. split; vm_compute; reflexivity. Qed.

(** Saving on the clean window of the logging machine: the store makes the
    configuration emit its signal, and the flag is clean again afterwards. *)
Lemma saveSettingsToFile_preserves_dirty_flag_witness :
  Qt.isEmpty "backup" = false
  /\ m_configChanged
       (saveSettingsToFile Scenario.collaborators "backup"
          (Scenario.window Scenario.logging))
     = m_configChanged (Scenario.window Scenario.logging).
Proof.
  split; [reflexivity|].
  apply (saveSettingsToFile_preserves_dirty_flag Scenario.collaborators "backup"
           (Scenario.window Scenario.logging)).
  reflexivity.
Defined.

(** Loading the French settings on the machine that has them. *)
Lemma loadSettingsFromFile_sequence_witness :
  Qt.isEmpty "/home/admin/classroom.json" = false
  /\ loadSettingsFromFile Scenario.collaborators "/home/admin/classroom.json"
       (Scenario.window Scenario.archived)
     = configurationChanged
         (reset Scenario.collaborators true
            (deliver true
               (set_config (<["Language" := VString "fr"]> ∅)
                  (record (EvStoreLoad System "/home/admin/classroom.json")
                     (record (EvGetOpenFileName "Load settings from file")
                        (Scenario.window Scenario.archived)))))).
Proof.
  split; [reflexivity|].
  apply (loadSettingsFromFile_sequence Scenario.collaborators
           "/home/admin/classroom.json" (Scenario.window Scenario.archived)).
  reflexivity.
Defined.

(** The window of the read-only machine after a failed apply. *)
Lemma button_box_enabled_iff_dirty_witness :
  reachable Scenario.collaborators Scenario.linux64
    (step Scenario.collaborators Scenario.linux64 DoApply
       (Scenario.window Scenario.readonly))
  /\ in_sync (step Scenario.collaborators Scenario.linux64 DoApply
                (Scenario.window Scenario.readonly)).
Proof.
  split.
  - apply reachable_step. apply reachable_MainWindow.
  - apply (proj1 (button_box_enabled_iff_dirty Scenario.collaborators Scenario.linux64
                    (step Scenario.collaborators Scenario.linux64 DoApply
                       (Scenario.window Scenario.readonly))
                    (reachable_step _ _ DoApply _ (reachable_MainWindow _ _ _ _ _ _)))).
Defined.

(** The report of the logging machine holds one log under ItalcService:
    the stale one from /tmp, visited last. *)
Lemma bug_report_as_assembled_witness :
  Qt.isEmpty "report" = false
  /\ forall k,
       Configuration.group "LogFiles"
         (assembleBugReport Scenario.collaborators Scenario.linux64
            (record (EvFileSystemBrowser "Save bug report archive")
               (Scenario.window Scenario.logging))).1 !! k
       = lastEntry k
           (map (logEntry Scenario.collaborators (Scenario.window Scenario.logging))
              (logFiles Scenario.collaborators Scenario.linux64
                 (Scenario.window Scenario.logging))).
Proof.
  split; [reflexivity|].
  exact (proj1 (proj2 (proj2 (proj2
           (bug_report_as_assembled Scenario.collaborators Scenario.linux64 "report"
              (Scenario.window Scenario.logging) eq_refl))))).
Defined.


(** * Further properties of the window *)

(** ** File names *)
Section FileNames.

Lemma endsWith_appended (f suffix : string) cs :
  Qt.endsWith (f ++ suffix) suffix cs = true.
Proof.
  apply endsWith_hasSuffix. exists f, suffix.
  split; [reflexivity|]. destruct cs; reflexivity.
Qed.

Lemma endsWith_whatever_the_case (f suffix : string) :
  Qt.endsWith f suffix Qt.CaseSensitive = true ->
  Qt.endsWith f suffix Qt.CaseInsensitive = true.
Proof.
  rewrite !endsWith_hasSuffix. intros (stem & ending & -> & Hsame).
  exists stem, ending. split; [reflexivity|].
  simpl in Hsame. subst ending. reflexivity.
Qed.

(** X1.  Whatever name the dialog returned, the name the settings are
    saved under ends in .json up to case, the name the bug report is saved
    under ends in .json literally, and normalising a name twice gives what
    normalising it once gives: .json is never appended a second time. *)
Theorem normalised_names_end_in_json (fileName : string) :
  Qt.endsWith (settingsFileName fileName) ".json" Qt.CaseInsensitive = true /\
  settingsFileName (settingsFileName fileName) = settingsFileName fileName /\
  Qt.endsWith (bugReportFileName fileName) ".json" Qt.CaseSensitive = true /\
  bugReportFileName (bugReportFileName fileName) = bugReportFileName fileName.
Proof.
  assert (Hs : Qt.endsWith (settingsFileName fileName) ".json" Qt.CaseInsensitive = true).
  { unfold settingsFileName.
    destruct (Qt.endsWith fileName ".json" Qt.CaseInsensitive) eqn:Hends; simpl;
      [exact Hends|apply endsWith_appended]. }
  assert (Hb : Qt.endsWith (bugReportFileName fileName) ".json" Qt.CaseSensitive = true).
  { unfold bugReportFileName.
    destruct (Qt.endsWith fileName ".json" Qt.CaseSensitive) eqn:Hends; simpl;
      [exact Hends|apply endsWith_appended]. }
  repeat split; try assumption.
  - unfold settingsFileName at 1. now rewrite Hs.
  - unfold bugReportFileName at 1. now rewrite Hb.
Qed.

(** X2.  The two normalisations can differ in one way only: on a name
    the settings path keeps and the bug report path extends.  A name the
    bug report path keeps is kept by the settings path too. *)
Theorem normalisations_agree_or_settings_keeps (fileName : string) :
  (settingsFileName fileName = bugReportFileName fileName
   \/ (settingsFileName fileName = fileName
       /\ bugReportFileName fileName = fileName ++ ".json")) /\
  (bugReportFileName fileName = fileName -> settingsFileName fileName = fileName).
Proof.
  unfold settingsFileName, bugReportFileName.
  destruct (Qt.endsWith fileName ".json" Qt.CaseSensitive) eqn:Hcs.
  - rewrite (endsWith_whatever_the_case _ _ Hcs). simpl. split; [now left|reflexivity].
  - destruct (Qt.endsWith fileName ".json" Qt.CaseInsensitive); simpl.
    + split; [right; split; reflexivity|reflexivity].
    + split; [now left|]. intros Heq. now apply append_json_changes in Heq.
Qed.

End FileNames.

(** ** Buttons, sequences of operations *)
Section Sequences.

Context {Sys Page : Type} `{ConfigurationPage Page}.
Variable E : Collaborators Sys.
Variable B : BuildConfig.

Abbreviation St := (State Sys Page).

(** *** The button box *)

Lemma land_pow2 (k j : Z) :
  (0 <= k)%Z -> (0 <= j)%Z ->
  Z.land (2 ^ k) (2 ^ j) = (if (k =? j)%Z then 2 ^ k else 0)%Z.
Proof.
  intros Hk Hj. destruct (Z.eqb_spec k j) as [->|Hne].
  - apply Z.land_diag.
  - apply Z.bits_inj'. intros n Hn.
    rewrite Z.land_spec, !Z.pow2_bits_eqb, Z.bits_0 by assumption.
    destruct (Z.eqb_spec k n) as [->|]; [|reflexivity].
    destruct (Z.eqb_spec j n) as [->|]; [congruence|reflexivity].
Qed.

(** X3.  A standard button has a value with a single bit, the button at
    bit 25 being Apply and the one at bit 26 Reset; a button that is no
    standard button has the value 0.  A click on Apply applies, a click on
    Reset resets with the snapshot re-merged, and a click on any other
    button does nothing at all. *)
Theorem resetOrApply_single_button (k : Z) (s : St) :
  (0 <= k)%Z ->
  resetOrApply E (2 ^ k) s =
    (if (k =? 25)%Z then apply E s
     else if (k =? 26)%Z then reset E false s
     else s) /\
  resetOrApply E Qt.NoButton s = s.
Proof.
  intros Hk. split; [|reflexivity]. unfold resetOrApply.
  change Qt.Apply with (2 ^ 25)%Z. change Qt.Reset with (2 ^ 26)%Z.
  rewrite !land_pow2 by lia.
  assert (Hpos : (0 < 2 ^ k)%Z) by (apply Z.pow_pos_nonneg; lia).
  destruct (Z.eqb_spec k 25) as [->|H25].
  - reflexivity.
  - cbn [Z.eqb negb]. destruct (Z.eqb_spec k 26) as [->|H26]; reflexivity.
Qed.

(** *** The operations, field by field *)

Lemma reset_eq onlyUI (s : St) :
  reset E onlyUI s =
    let c := if onlyUI then config s
             else localBackend E (sys s) ∪ defaultConfiguration E in
    {| config := c;
       pages := map (fun page => fst (resetWidgets c page)) (pages s);
       buttonBoxEnabled := false; m_configChanged := false;
       connected := connected s; sys := sys s; trace := trace s |}.
Proof.
  unfold reset. rewrite onPages_eq. destruct s as [c ps enabled dirty conn y tr].
  destruct onlyUI; cbn [negb set_config config pages sys];
    rewrite ?merged_layers; unfold deliver;
    match goal with |- context [?b && connected ?x] => destruct (b && connected x) end;
    reflexivity.
Qed.

Lemma loadSettingsFromFile_eq fileName (s : St) :
  Qt.isEmpty fileName = false ->
  loadSettingsFromFile E fileName s =
    let c := (load E System fileName (config s) (sys s)).1 in
    {| config := c;
       pages := map (fun page => fst (resetWidgets c page)) (pages s);
       buttonBoxEnabled := true; m_configChanged := true;
       connected := connected s; sys := sys s;
       trace := trace s ++ [EvGetOpenFileName "Load settings from file";
                           EvStoreLoad System fileName] |}.
Proof.
  intros Hname. unfold loadSettingsFromFile. rewrite Hname.
  cbn [negb record config sys].
  destruct (load E System fileName (config s) (sys s)) as [c emitted].
  rewrite reset_eq. cbv zeta. cbn [fst].
  rewrite config_deliver, pages_deliver, connected_deliver, sys_deliver, trace_deliver.
  cbn [configurationChanged set_m_configChanged setEnabled set_config record
       config pages connected sys trace buttonBoxEnabled m_configChanged].
  now rewrite <- app_assoc.
Qed.

Lemma apply_eq (s : St) :
  apply E s =
    let committed := applyConfiguration E (config s) (sys s) in
    {| config := config s;
       pages := if committed.1
                then map (fun page => fst (pageApplyConfiguration (config s) page)) (pages s)
                else pages s;
       buttonBoxEnabled := if committed.1 then false else buttonBoxEnabled s;
       m_configChanged := if committed.1 then false else m_configChanged s;
       connected := connected s; sys := committed.2;
       trace := trace s ++ [EvApplyConfiguration (config s)] |}.
Proof.
  unfold apply. destruct (applyConfiguration E (config s) (sys s)) as [[] sys'];
    cbv zeta; cbn [fst snd]; [|reflexivity].
  rewrite onPages_eq. unfold deliver. destruct s as [c ps enabled dirty conn y tr].
  match goal with |- context [?b && connected ?x] => destruct (b && connected x) end;
    reflexivity.
Qed.

Lemma saveSettingsToFile_eq fileName (s : St) :
  Qt.isEmpty fileName = false ->
  saveSettingsToFile E fileName s =
    {| config := config s; pages := pages s;
       buttonBoxEnabled := m_configChanged s; m_configChanged := m_configChanged s;
       connected := connected s;
       sys := (flush E System (settingsFileName fileName) (config s) (sys s)).1;
       trace := trace s ++ [EvGetSaveFileName "Save settings to file";
                           EvStoreFlush System (settingsFileName fileName) (config s)] |}.
Proof.
  intros Hname. unfold saveSettingsToFile. rewrite Hname.
  cbn [negb record config sys m_configChanged].
  destruct (flush E System (settingsFileName fileName) (config s) (sys s))
    as [sys' emitted].
  unfold deliver. destruct s as [c ps enabled dirty conn y tr].
  match goal with |- context [?b && connected ?x] => destruct (b && connected x) end;
    unfold setEnabled, set_m_configChanged, set_sys, record, configurationChanged;
    cbn [fst config pages connected sys trace buttonBoxEnabled m_configChanged];
    now rewrite <- app_assoc.
Qed.

(** *** One operation after another *)

(** X4.  If resetting the widgets of a page a second time from the same
    configuration shows what the first time showed, then [reset(true)]
    right after any [reset] changes nothing: the window is in the very
    state the first [reset] left. *)
Theorem reset_then_resync_changes_nothing (onlyUI : bool) (s : St) :
  (forall (c : DataMap) (page : Page),
      fst (resetWidgets c (fst (resetWidgets c page))) = fst (resetWidgets c page)) ->
  reset E true (reset E onlyUI s) = reset E onlyUI s.
Proof.
  intros Hidem. rewrite (reset_eq true), (reset_eq onlyUI). cbv zeta.
  cbn [config pages connected sys trace]. f_equal.
  rewrite map_map. apply map_ext. intros page. apply Hidem.
Qed.

(** X5.  A click on Reset after a settings file was loaded throws the
    loaded values away: the snapshot is again the defaults merged with the
    local-backend configuration, and the window is clean. *)
Theorem reset_button_discards_loaded_settings (fileName : string) (s : St) :
  Qt.isEmpty fileName = false ->
  let s' := resetOrApply E Qt.Reset (loadSettingsFromFile E fileName s) in
  config s' = localBackend E (sys s) ∪ defaultConfiguration E /\
  m_configChanged s' = false /\
  buttonBoxEnabled s' = false /\
  trace s' = trace (loadSettingsFromFile E fileName s).
Proof.
  intros Hname. cbv zeta.
  change (resetOrApply E Qt.Reset (loadSettingsFromFile E fileName s))
    with (reset E false (loadSettingsFromFile E fileName s)).
  rewrite reset_eq. cbv zeta. cbn [config m_configChanged buttonBoxEnabled trace].
  rewrite loadSettingsFromFile_eq by exact Hname. repeat split; reflexivity.
Qed.

(** X6.  A click on Apply after a settings file was loaded commits the
    loaded snapshot, and nothing else: the configuration handed to the
    commit operation is the one the store loaded, it is still the snapshot
    afterwards, and the window ends clean exactly when the commit
    succeeds. *)
Theorem apply_button_commits_loaded_settings (fileName : string) (s : St) :
  Qt.isEmpty fileName = false ->
  let loaded := (load E System fileName (config s) (sys s)).1 in
  let success := (applyConfiguration E loaded (sys s)).1 in
  let s' := resetOrApply E Qt.Apply (loadSettingsFromFile E fileName s) in
  config s' = loaded /\
  last (trace s') = Some (EvApplyConfiguration loaded) /\
  m_configChanged s' = negb success /\
  buttonBoxEnabled s' = negb success.
Proof.
  intros Hname. cbv zeta.
  change (resetOrApply E Qt.Apply (loadSettingsFromFile E fileName s))
    with (apply E (loadSettingsFromFile E fileName s)).
  rewrite apply_eq. cbv zeta.
  cbn [config m_configChanged buttonBoxEnabled trace].
  rewrite loadSettingsFromFile_eq by exact Hname. cbv zeta.
  cbn [config sys trace m_configChanged buttonBoxEnabled].
  rewrite last_snoc.
  destruct (applyConfiguration E _ (sys s)) as [[] sys']; repeat split; reflexivity.
Qed.

Lemma closeEvent_clean answer (s : St) :
  m_configChanged s = false -> closeEvent answer s = (true, s).
Proof. intros Hclean. unfold closeEvent. now rewrite Hclean. Qed.

Lemma closeEvent_dirty answer (s : St) :
  m_configChanged s = true ->
  ((closeEvent answer s).1 = true <-> answer = Qt.Yes).
Proof.
  intros Hdirty. unfold closeEvent. rewrite Hdirty.
  destruct (Z.eqb_spec answer Qt.Yes) as [Hyes|Hother]; simpl;
    split; intros; congruence.
Qed.

(** X7.  Right after a reset, and right after an apply whose commit
    succeeded, the window closes without asking, whatever the answer to the
    question would have been. *)
Theorem close_after_reset_or_apply_does_not_ask (answer : Z) (onlyUI : bool) (s : St) :
  closeEvent answer (reset E onlyUI s) = (true, reset E onlyUI s) /\
  ((applyConfiguration E (config s) (sys s)).1 = true ->
   closeEvent answer (apply E s) = (true, apply E s)).
Proof.
  split; [now apply closeEvent_clean|].
  intros Hok. apply closeEvent_clean.
  rewrite apply_eq. cbv zeta. cbn [m_configChanged]. now rewrite Hok.
Qed.

(** X8.  Loading a settings file makes the window dirty whatever it was
    before, and neither saving the settings to a file nor a failed apply
    makes a dirty window clean: a close request right after any of them is
    accepted only on the answer Yes. *)
Theorem close_after_load_save_or_failed_apply_asks
    (answer : Z) (fileName : string) (s : St) :
  (Qt.isEmpty fileName = false ->
   ((closeEvent answer (loadSettingsFromFile E fileName s)).1 = true
    <-> answer = Qt.Yes)) /\
  (Qt.isEmpty fileName = false -> m_configChanged s = true ->
   ((closeEvent answer (saveSettingsToFile E fileName s)).1 = true
    <-> answer = Qt.Yes)) /\
  (m_configChanged s = true ->
   (applyConfiguration E (config s) (sys s)).1 = false ->
   ((closeEvent answer (apply E s)).1 = true <-> answer = Qt.Yes)).
Proof.
  split; [|split].
  - intros Hname. apply closeEvent_dirty.
    now rewrite loadSettingsFromFile_eq by exact Hname.
  - intros Hname Hdirty. apply closeEvent_dirty.
    rewrite saveSettingsToFile_eq by exact Hname. exact Hdirty.
  - intros Hdirty Hfailed. apply closeEvent_dirty.
    rewrite apply_eq. cbv zeta. cbn [m_configChanged]. now rewrite Hfailed.
Qed.

(** *** The connection of line 80 *)

Lemma connected_generateBugReportArchive outfile (s : St) :
  connected (generateBugReportArchive E B outfile s) = connected s.
Proof.
  unfold generateBugReportArchive. destruct (Qt.isEmpty outfile); [reflexivity|].
  rewrite assembleBugReport_eq.
  destruct (flush E BugReportArchive _ _ _) as [sys' emitted]. reflexivity.
Qed.

Lemma connected_step (a : Action) (s : St) :
  connected (step E B a s) = connected s.
Proof.
  destruct a as [onlyUI| | |btn|fileName|fileName|outfile|answer|ps c emitted|y];
    cbn [step].
  - apply connected_reset.
  - now rewrite apply_eq.
  - reflexivity.
  - unfold resetOrApply.
    destruct (negb (Z.land btn Qt.Apply =? 0)%Z); [now rewrite apply_eq|].
    destruct (negb (Z.land btn Qt.Reset =? 0)%Z); [apply connected_reset|reflexivity].
  - unfold loadSettingsFromFile. destruct (Qt.isEmpty fileName) eqn:Hname;
      [reflexivity|].
    fold (loadSettingsFromFile E fileName s).
    assert (Heq := loadSettingsFromFile_eq fileName s Hname).
    unfold loadSettingsFromFile in Heq. rewrite Hname in Heq.
    cbn [negb] in Heq. cbn [negb]. now rewrite Heq.
  - unfold saveSettingsToFile. destruct (Qt.isEmpty fileName) eqn:Hname;
      [reflexivity|].
    assert (Heq := saveSettingsToFile_eq fileName s Hname).
    unfold saveSettingsToFile in Heq. rewrite Hname in Heq.
    cbn [negb] in Heq. cbn [negb]. now rewrite Heq.
  - apply connected_generateBugReportArchive.
  - unfold closeEvent. destruct (m_configChanged s); [|reflexivity].
    destruct (negb (answer =? Qt.Yes)%Z); reflexivity.
  - now rewrite connected_deliver.
  - reflexivity.
Qed.

Lemma connected_reachable (s : St) : reachable E B s -> connected s = true.
Proof.
  induction 1 as [c0 ps enabled0 y|a s _ IH]; [reflexivity|].
  now rewrite connected_step.
Qed.

(** X9.  The constructor connects the configuration's signal to the slot
    and nothing ever disconnects it: in every state the window can be in,
    an edit that makes the configuration emit its signal leaves the window
    dirty with the button box enabled, and an edit that does not leaves
    both flags as they were. *)
Theorem edit_marks_window_dirty (ps : list Page) (c : DataMap) (s : St) :
  reachable E B s ->
  let changed := step E B (DoEdit ps c true) s in
  let silent := step E B (DoEdit ps c false) s in
  m_configChanged changed = true /\
  buttonBoxEnabled changed = true /\
  config changed = c /\
  m_configChanged silent = m_configChanged s /\
  buttonBoxEnabled silent = buttonBoxEnabled s.
Proof.
  intros Hreach. apply connected_reachable in Hreach.
  cbv zeta. cbn [step]. unfold deliver.
  cbn [set_config set_pages connected andb]. rewrite Hreach.
  repeat split; reflexivity.
Qed.

(** *** The constructor *)

Lemma m_configChanged_MainWindow (c0 : DataMap) (ps : list Page) (enabled0 : bool) (y : Sys) :
  m_configChanged (MainWindow E c0 ps enabled0 y)
  = (size (localBackend E y) <? size (localBackend E y ∪ defaultConfiguration E))%nat.
Proof.
  unfold MainWindow. rewrite sys_reset, config_reset. unfold reset_default.
  cbn [sys]. destruct (_ <? _)%nat; reflexivity.
Qed.

(** X10.  The window comes up dirty exactly when the defaults define a
    key the local backend does not: then, and only then, has the local
    backend fewer keys than the merge. *)
Theorem MainWindow_dirty_iff_default_key_missing
    (c0 : DataMap) (ps : list Page) (enabled0 : bool) (y : Sys) :
  m_configChanged (MainWindow E c0 ps enabled0 y) = true <->
  exists key, is_Some (defaultConfiguration E !! key) /\ localBackend E y !! key = None.
Proof.
  rewrite m_configChanged_MainWindow, Nat.ltb_lt.
  rewrite <- !size_dom, dom_union_L, size_union_alt. split.
  - intros Hlt.
    destruct (size_pos_elem_of (dom (defaultConfiguration E) ∖ dom (localBackend E y)))
      as [key Hkey]; [lia|].
    apply elem_of_difference in Hkey. destruct Hkey as [Hin Hout].
    exists key. split; [now apply elem_of_dom|now apply not_elem_of_dom].
  - intros (key & Hin & Hout).
    assert (Hkey : key ∈ dom (defaultConfiguration E) ∖ dom (localBackend E y)).
    { apply elem_of_difference. split; [now apply elem_of_dom|now apply not_elem_of_dom]. }
    assert (Hsize : size (dom (defaultConfiguration E) ∖ dom (localBackend E y)) <> 0).
    { apply size_non_empty_iff. intros Hempty. rewrite Hempty in Hkey.
      now apply not_elem_of_empty in Hkey. }
    lia.
Qed.

End Sequences.

(** ** The log files of the bug report *)
Section LogFiles.

Context {Sys Page : Type} `{ConfigurationPage Page}.
Variable E : Collaborators Sys.
Variable B : BuildConfig.

Abbreviation St := (State Sys Page).

Lemma lastEntry_snoc k (es : list (string * Value)) e :
  lastEntry k (es ++ [e]) = if String.eqb e.1 k then Some e.2 else lastEntry k es.
Proof. unfold lastEntry. now rewrite fold_left_app. Qed.

Lemma lastEntry_app k (es1 es2 : list (string * Value)) :
  lastEntry k (es1 ++ es2)
  = match lastEntry k es2 with
    | Some v => Some v
    | None => lastEntry k es1
    end.
Proof.
  induction es2 as [|e es2 IH] using rev_ind.
  - now rewrite app_nil_r.
  - rewrite app_assoc, !lastEntry_snoc, IH.
    destruct (String.eqb e.1 k); reflexivity.
Qed.

Lemma lastEntry_is_Some k (es : list (string * Value)) :
  is_Some (lastEntry k es) <-> exists e, In e es /\ e.1 = k.
Proof.
  induction es as [|e es IH] using rev_ind.
  - split; [intros [v Hv]; discriminate|intros (e & [] & _)].
  - rewrite lastEntry_snoc. destruct (String.eqb_spec e.1 k) as [Hk|Hk].
    + split; [intros _|intros _; now eexists].
      exists e. split; [apply in_or_app; right; now left|exact Hk].
    + rewrite IH. split.
      * intros (e' & Hin & He'). exists e'. split; [apply in_or_app; now left|exact He'].
      * intros (e' & Hin & He'). apply in_app_or in Hin.
        destruct Hin as [Hin|[->|[]]]; [now exists e'|contradiction].
Qed.

Lemma lastEntry_NoDup (es : list (string * Value)) e :
  NoDup (map fst es) -> In e es -> lastEntry e.1 es = Some e.2.
Proof.
  induction es as [|e' es IH] using rev_ind; intros Hnodup Hin; [destruct Hin|].
  rewrite lastEntry_snoc. rewrite map_app in Hnodup.
  apply NoDup_app in Hnodup. destruct Hnodup as (Hes & Hfresh & _).
  apply in_app_or in Hin. destruct Hin as [Hin|[->|[]]].
  - destruct (String.eqb_spec e'.1 e.1) as [Hsame|_]; [|now apply IH].
    exfalso. apply (Hfresh e.1).
    + apply list_elem_of_In. apply in_map. exact Hin.
    + rewrite <- Hsame. simpl. apply list_elem_of_In. now left.
  - now rewrite String.eqb_refl.
Qed.

(** The group LogFiles of the assembled document, key by key. *)
Lemma lookup_LogFiles (s : St) k :
  Configuration.group "LogFiles" (assembleBugReport E B s).1 !! k
  = lastEntry k (map (logEntry E s) (logFiles E B s)).
Proof.
  rewrite assembleBugReport_eq. cbn [fst].
  rewrite group_addEntries, lookup_entries. unfold lastEntry.
  destruct (fold_left _ _ None); reflexivity.
Qed.

(** X11.  Generating a bug report, with whatever file name and whatever
    the stores and the file system do, leaves the snapshot, the pages, the
    dirty flag and the button box as they were. *)
Theorem generateBugReportArchive_leaves_window (outfile : string) (s : St) :
  let s' := generateBugReportArchive E B outfile s in
  config s' = config s /\
  pages s' = pages s /\
  m_configChanged s' = m_configChanged s /\
  buttonBoxEnabled s' = buttonBoxEnabled s.
Proof.
  cbv zeta. unfold generateBugReportArchive.
  destruct (Qt.isEmpty outfile); [repeat split; reflexivity|].
  rewrite assembleBugReport_eq.
  destruct (flush E BugReportArchive _ _ _) as [sys' emitted].
  repeat split; reflexivity.
Qed.

(** X12.  The keys of the group LogFiles are exactly the base names of the
    log files visited: a key is there if and only if some file found in the
    log directory or in the temp directory has it as its base name. *)
Theorem LogFiles_keys_are_base_names (s : St) (k : string) :
  is_Some (Configuration.group "LogFiles" (assembleBugReport E B s).1 !! k) <->
  exists df, In df (logFiles E B s) /\ Qt.baseName df.2 = k.
Proof.
  rewrite lookup_LogFiles, lastEntry_is_Some. split.
  - intros (e & Hin & He). apply in_map_iff in Hin.
    destruct Hin as (df & <- & Hin). now exists df.
  - intros (df & Hin & Hdf). exists (logEntry E s df).
    split; [now apply in_map|exact Hdf].
Qed.

(** X13.  When no two of the log files visited share a base name, every
    one of them is in the group LogFiles, under its base name, as the
    base64 encoding of its compressed contents (of nothing, for a file
    that cannot be read). *)
Theorem distinct_base_names_all_stored (s : St) (df : string * string) :
  NoDup (map (fun df => Qt.baseName df.2) (logFiles E B s)) ->
  In df (logFiles E B s) ->
  Configuration.group "LogFiles" (assembleBugReport E B s).1 !! Qt.baseName df.2
  = Some (VByteArray
            (encodeLog E (readAll E (absoluteFilePath E df.1 df.2) (sys s)))).
Proof.
  intros Hnodup Hin. rewrite lookup_LogFiles.
  apply (lastEntry_NoDup (map (logEntry E s) (logFiles E B s)) (logEntry E s df)).
  - rewrite map_map. exact Hnodup.
  - now apply in_map.
Qed.


(** X16.  On a clash of base names the temp directory wins: a log file
    found in the temp directory, the only one there with its base name, is
    in the group LogFiles under that name with its own contents, whatever
    the log directory holds. *)
Theorem temp_directory_wins (s : St) (f : string) :
  NoDup (map Qt.baseName (entryList E (tempDirectory B) ["Italc*.log"] (sys s))) ->
  In f (entryList E (tempDirectory B) ["Italc*.log"] (sys s)) ->
  Configuration.group "LogFiles" (assembleBugReport E B s).1 !! Qt.baseName f
  = Some (VByteArray
            (encodeLog E (readAll E (absoluteFilePath E (tempDirectory B) f) (sys s)))).
Proof.
  intros Hnodup Hin. rewrite lookup_LogFiles.
  unfold logFiles, logPaths. cbn [flat_map]. rewrite app_nil_r, map_app, lastEntry_app.
  change (Qt.baseName f) with (logEntry E s (tempDirectory B, f)).1.
  rewrite (lastEntry_NoDup
             (map (logEntry E s)
                (map (pair (tempDirectory B))
                   (entryList E (tempDirectory B) ["Italc*.log"] (sys s))))
             (logEntry E s (tempDirectory B, f))).
  - reflexivity.
  - rewrite !map_map. exact Hnodup.
  - apply in_map. now apply in_map.
Qed.

End LogFiles.

(** ** The system information of the bug report *)
Section SystemInformation.

Context {Sys Page : Type} `{ConfigurationPage Page}.
Variable E : Collaborators Sys.
Variable B : BuildConfig.

Abbreviation St := (State Sys Page).

Lemma dropSpaces_blank (l : list ascii) :
  Forall (fun c => Qt.isSpace c = true) l -> Qt.dropSpaces l = [].
Proof.
  induction 1 as [|c l Hc _ IH]; simpl; [reflexivity|]. now rewrite Hc.
Qed.

Lemma trimmed_blank (t : string) :
  Forall (fun c => Qt.isSpace c = true) (Qt.chars t) -> Qt.trimmed t = "".
Proof.
  intros Hblank. unfold Qt.trimmed.
  rewrite (dropSpaces_blank (Qt.chars t)) by exact Hblank. reflexivity.
Qed.

(** X15.  In a Linux build, whether /etc/lsb-release could be opened is
    not looked at: when the file is missing, empty or blank, the OS entry
    of the report is the word Linux followed by a line feed, and the report
    is assembled all the same. *)
Theorem linux_without_lsb_release (s : St) :
  platform B = ITALC_BUILD_LINUX ->
  Forall (fun c => Qt.isSpace c = true)
         (Qt.chars (readAll E "/etc/lsb-release" (sys s))) ->
  (systemInformation E B s).1.1 = "Linux" ++ Qt.LF /\
  Configuration.group "General" (assembleBugReport E B s).1 !! "OS"
  = Some (VString ("Linux" ++ Qt.LF)).
Proof.
  intros Hlinux Hblank.
  assert (Hos : (systemInformation E B s).1.1 = "Linux" ++ Qt.LF).
  { unfold systemInformation. rewrite Hlinux. cbn [fst record sys].
    now rewrite trimmed_blank. }
  split; [exact Hos|].
  rewrite assembleBugReport_eq. cbn [fst].
  unfold Configuration.group. rewrite lookup_addEntries_ne by discriminate.
  rewrite lookup_insert_ne by discriminate. rewrite lookup_insert_eq.
  unfold generalGroup. rewrite !lookup_insert_ne by discriminate.
  now rewrite lookup_insert_eq, Hos.
Qed.

End SystemInformation.

(** ** The further properties on the small installation *)

(** The Ok button, bit 10, on the window of the quiet machine. *)
Lemma resetOrApply_single_button_witness :
  (0 <= 10)%Z
  /\ resetOrApply Scenario.collaborators (2 ^ 10) (Scenario.window Scenario.quiet)
     = Scenario.window Scenario.quiet.
Proof.
  split; [lia|].
  exact (proj1 (resetOrApply_single_button Scenario.collaborators 10
                  (Scenario.window Scenario.quiet) ltac:(lia))).
Defined.

(** The line edit shows the language of the configuration, whatever it
    showed before. *)
Lemma reset_then_resync_changes_nothing_witness :
  (forall (c : DataMap) (page : string),
      fst (resetWidgets c (fst (resetWidgets c page))) = fst (resetWidgets c page))
  /\ reset Scenario.collaborators true
       (reset Scenario.collaborators false (Scenario.window Scenario.quiet))
     = reset Scenario.collaborators false (Scenario.window Scenario.quiet).
Proof.
  split; [reflexivity|].
  apply (reset_then_resync_changes_nothing Scenario.collaborators false
           (Scenario.window Scenario.quiet)).
  reflexivity.
Defined.

Lemma reset_button_discards_loaded_settings_witness :
  Qt.isEmpty "/home/admin/classroom.json" = false
  /\ m_configChanged
       (resetOrApply Scenario.collaborators Qt.Reset
          (loadSettingsFromFile Scenario.collaborators "/home/admin/classroom.json"
             (Scenario.window Scenario.archived)))
     = false.
Proof.
  split; [reflexivity|].
  exact (proj1 (proj2
           (reset_button_discards_loaded_settings Scenario.collaborators
              "/home/admin/classroom.json" (Scenario.window Scenario.archived)
              eq_refl))).
Defined.

Lemma apply_button_commits_loaded_settings_witness :
  Qt.isEmpty "/home/admin/classroom.json" = false
  /\ config
       (resetOrApply Scenario.collaborators Qt.Apply
          (loadSettingsFromFile Scenario.collaborators "/home/admin/classroom.json"
             (Scenario.window Scenario.archived)))
     = (load Scenario.collaborators System "/home/admin/classroom.json"
          (config (Scenario.window Scenario.archived))
          (sys (Scenario.window Scenario.archived))).1.
Proof.
  split; [reflexivity|].
  exact (proj1
           (apply_button_commits_loaded_settings Scenario.collaborators
              "/home/admin/classroom.json" (Scenario.window Scenario.archived)
              eq_refl)).
Defined.

Lemma close_after_reset_or_apply_does_not_ask_witness :
  closeEvent Qt.No (reset Scenario.collaborators false (Scenario.window Scenario.readonly))
  = (true, reset Scenario.collaborators false (Scenario.window Scenario.readonly))
  /\ (applyConfiguration Scenario.collaborators
        (config (Scenario.window Scenario.quiet))
        (sys (Scenario.window Scenario.quiet))).1 = true
  /\ closeEvent Qt.No (apply Scenario.collaborators (Scenario.window Scenario.quiet))
     = (true, apply Scenario.collaborators (Scenario.window Scenario.quiet)).
Proof.
  split.
  - exact (proj1
             (close_after_reset_or_apply_does_not_ask Scenario.collaborators
                Qt.No false (Scenario.window Scenario.readonly))).
  - split; [reflexivity|].
    exact (proj2
             (close_after_reset_or_apply_does_not_ask Scenario.collaborators
                Qt.No false (Scenario.window Scenario.quiet)) eq_refl).
Defined.

(** Loading on the clean window of the machine with the settings file;
    saving and a failed apply on the dirty window of the read-only
    machine. *)
Lemma close_after_load_save_or_failed_apply_asks_witness :
  Qt.isEmpty "/home/admin/classroom.json" = false
  /\ m_configChanged (Scenario.window Scenario.archived) = false
  /\ ((closeEvent Qt.No
         (loadSettingsFromFile Scenario.collaborators "/home/admin/classroom.json"
            (Scenario.window Scenario.archived))).1 = true
      <-> Qt.No = Qt.Yes)
  /\ Qt.isEmpty "backup" = false
  /\ m_configChanged (Scenario.window Scenario.readonly) = true
  /\ ((closeEvent Qt.No
         (saveSettingsToFile Scenario.collaborators "backup"
            (Scenario.window Scenario.readonly))).1 = true
      <-> Qt.No = Qt.Yes)
  /\ (applyConfiguration Scenario.collaborators
        (config (Scenario.window Scenario.readonly))
        (sys (Scenario.window Scenario.readonly))).1 = false
  /\ ((closeEvent Qt.No
         (apply Scenario.collaborators (Scenario.window Scenario.readonly))).1 = true
      <-> Qt.No = Qt.Yes).
Proof.
  split; [reflexivity|]. split; [vm_compute; reflexivity|]. split.
  { exact (proj1
             (close_after_load_save_or_failed_apply_asks Scenario.collaborators
                Qt.No "/home/admin/classroom.json" (Scenario.window Scenario.archived))
             eq_refl). }
  split; [reflexivity|]. split; [vm_compute; reflexivity|]. split.
  { exact (proj1 (proj2
             (close_after_load_save_or_failed_apply_asks Scenario.collaborators
                Qt.No "backup" (Scenario.window Scenario.readonly)))
             eq_refl eq_refl). }
  split; [reflexivity|].
  exact (proj2 (proj2
           (close_after_load_save_or_failed_apply_asks Scenario.collaborators
              Qt.No "backup" (Scenario.window Scenario.readonly)))
           eq_refl eq_refl).
Defined.

Lemma edit_marks_window_dirty_witness :
  reachable Scenario.collaborators Scenario.linux64 (Scenario.window Scenario.logging)
  /\ m_configChanged
       (step Scenario.collaborators Scenario.linux64
          (DoEdit ["fr"] (<["Language" := VString "fr"]> ∅) true)
          (Scenario.window Scenario.logging))
     = true.
Proof.
  split; [apply reachable_MainWindow|].
  exact (proj1
           (edit_marks_window_dirty Scenario.collaborators Scenario.linux64
              ["fr"] (<["Language" := VString "fr"]> ∅)
              (Scenario.window Scenario.logging)
              (reachable_MainWindow _ _ _ _ _ _))).
Defined.

(** The two services log under different names. *)
Lemma distinct_base_names_all_stored_witness :
  NoDup (map (fun df : string * string => Qt.baseName df.2)
           (logFiles Scenario.collaborators Scenario.linux64
              (Scenario.window Scenario.twoServices)))
  /\ In ("/var/log/italc", "ItalcMaster.log")
        (logFiles Scenario.collaborators Scenario.linux64
           (Scenario.window Scenario.twoServices))
  /\ Configuration.group "LogFiles"
       (assembleBugReport Scenario.collaborators Scenario.linux64
          (Scenario.window Scenario.twoServices)).1 !! "ItalcMaster"
     = Some (VByteArray "b64:z:master").
Proof.
  assert (Hnodup : NoDup (map (fun df : string * string => Qt.baseName df.2)
                            (logFiles Scenario.collaborators Scenario.linux64
                               (Scenario.window Scenario.twoServices)))).
  { apply (bool_decide_unpack _). vm_compute. exact I. }
  assert (Hin : In ("/var/log/italc", "ItalcMaster.log")
                   (logFiles Scenario.collaborators Scenario.linux64
                      (Scenario.window Scenario.twoServices))).
  { vm_compute. right. left. reflexivity. }
  split; [exact Hnodup|]. split; [exact Hin|].
  exact (distinct_base_names_all_stored Scenario.collaborators Scenario.linux64
           (Scenario.window Scenario.twoServices)
           ("/var/log/italc", "ItalcMaster.log") Hnodup Hin).
Defined.


(** The quiet machine has no /etc/lsb-release. *)
Lemma linux_without_lsb_release_witness :
  platform Scenario.linux64 = ITALC_BUILD_LINUX
  /\ Forall (fun c => Qt.isSpace c = true)
       (Qt.chars (readAll Scenario.collaborators "/etc/lsb-release"
                    (sys (Scenario.window Scenario.quiet))))
  /\ (systemInformation Scenario.collaborators Scenario.linux64
        (Scenario.window Scenario.quiet)).1.1 = "Linux" ++ Qt.LF.
Proof.
  assert (Hblank : Forall (fun c => Qt.isSpace c = true)
                     (Qt.chars (readAll Scenario.collaborators "/etc/lsb-release"
                                  (sys (Scenario.window Scenario.quiet))))).
  { vm_compute. apply List.Forall_nil. }
  split; [reflexivity|]. split; [exact Hblank|].
  exact (proj1
           (linux_without_lsb_release Scenario.collaborators Scenario.linux64
              (Scenario.window Scenario.quiet) eq_refl Hblank)).
Defined.

(** The stale log in /tmp of the logging machine. *)
Lemma temp_directory_wins_witness :
  NoDup (map Qt.baseName
           (entryList Scenario.collaborators (tempDirectory Scenario.linux64)
              ["Italc*.log"] (sys (Scenario.window Scenario.logging))))
  /\ In "ItalcService.log"
        (entryList Scenario.collaborators (tempDirectory Scenario.linux64)
           ["Italc*.log"] (sys (Scenario.window Scenario.logging)))
  /\ Configuration.group "LogFiles"
       (assembleBugReport Scenario.collaborators Scenario.linux64
          (Scenario.window Scenario.logging)).1 !! "ItalcService"
     = Some (VByteArray "b64:z:stale").
Proof.
  assert (Hnodup : NoDup (map Qt.baseName
                            (entryList Scenario.collaborators
                               (tempDirectory Scenario.linux64) ["Italc*.log"]
                               (sys (Scenario.window Scenario.logging))))).
  { apply (bool_decide_unpack _). vm_compute. exact I. }
  assert (Hin : In "ItalcService.log"
                   (entryList Scenario.collaborators (tempDirectory Scenario.linux64)
                      ["Italc*.log"] (sys (Scenario.window Scenario.logging)))).
  { vm_compute. left. reflexivity. }
  split; [exact Hnodup|]. split; [exact Hin|].
  exact (temp_directory_wins Scenario.collaborators Scenario.linux64
           (Scenario.window Scenario.logging) "ItalcService.log" Hnodup Hin).
Defined.
